(** * Computer-use demo, Gradio entry point: a shallow embedding

    Source: [computer-use-demo/computer_use_demo/gradio_app.py].

    The file embeds
    - the persistence helpers [load_from_storage] and [save_to_storage],
      together with the two places of [create_app] that read them;
    - the inner generator [output_callback] of [chat], which turns one
      content value of the agent loop into displayable fragments;
    - the async generator [chat] itself, which appends the user turn,
      drives the agent loop, accumulates [bot_response] and commits it.

    Conventions.
    - A Python [str] is a list of Unicode code points ([pystr]).
    - An exception is a value [exn]; only subclasses of [Exception] are
      represented, so [except Exception] catches every [exn].
    - A generator is its finite run: the values it yields, in order, and
      how it ends ([Gen]).
    - A name is looked up among the names the module binds
      ([module_names]); [ToolUseBlock] is used on line 71 without being
      imported, so that lookup raises [NameError].
    - [chat] ends with [return history], which Python does not accept in
      an async generator; it is read as handing back the history list
      that [chat] has mutated in place.
    - [sampling_loop], [base64.b64decode], [pathlib] and [os.environ] are
      outside the module: they are parameters of the embedding. *)

From Stdlib Require Import String Ascii List NArith Bool Lia.
From Stdlib Require Import Strings.Byte.
From Stdlib Require Import DecimalString.
Import ListNotations.

Set Implicit Arguments.

(** ** Python values *)

Definition pystr := list N.

(** A string literal of the source, as code points. *)
Definition lit (s : string) : pystr :=
  map N_of_ascii (list_ascii_of_string s).

Arguments lit s%_string.

(** The empty [str]. *)
Definition empty_str : pystr := [].

(** Truth value of a [str]: the empty string is false. *)
Definition truthy (s : pystr) : bool :=
  match s with
  | [] => false
  | _ :: _ => true
  end.

(** Truth value of a [str | None]. *)
Definition opt_truthy (o : option pystr) : bool :=
  match o with
  | Some s => truthy s
  | None => false
  end.

(** [a or b] where [a : str | None] and [b : str]. *)
Definition py_or (a : option pystr) (b : pystr) : pystr :=
  match a with
  | Some s => if truthy s then s else b
  | None => b
  end.

(** [str.isspace] on one code point (the white-space table of CPython). *)
Definition isspace (c : N) : bool :=
  (((9 <=? c) && (c <=? 13)) || ((28 <=? c) && (c <=? 32))
   || (c =? 133) || (c =? 160) || (c =? 5760)
   || ((8192 <=? c) && (c <=? 8202))
   || (c =? 8232) || (c =? 8233) || (c =? 8239) || (c =? 8287)
   || (c =? 12288))%N.

Fixpoint lstrip (s : pystr) : pystr :=
  match s with
  | [] => []
  | c :: s' => if isspace c then lstrip s' else s
  end.

Definition rstrip (s : pystr) : pystr := rev (lstrip (rev s)).

(** [str.strip()] *)
Definition strip (s : pystr) : pystr := rstrip (lstrip s).

(** ** Exceptions and results *)

Record exn := Exn { exn_class : string; exn_msg : pystr }.

Arguments Exn exn_class%_string exn_msg.

Inductive result (A : Type) : Type :=
| Ok (a : A)
| Raise (e : exn).

Arguments Ok {A} a.
Arguments Raise {A} e.

(** ** Monads used by the embedding *)

Class Monad (m : Type -> Type) : Type := {
  ret : forall {A}, A -> m A;
  bind : forall {A B}, m A -> (A -> m B) -> m B
}.

Declare Scope py_scope.
Delimit Scope py_scope with py.
Notation "x <- c ;; k" := (bind c (fun x => k))
  (at level 61, c at next level, right associativity) : py_scope.
Notation "c ;; k" := (bind c (fun _ => k))
  (at level 61, right associativity) : py_scope.
Local Open Scope py_scope.

(** *** Generators: what is yielded, then how the generator ends *)

Record Gen (Y A : Type) : Type := mkGen {
  yielded : list Y;
  outcome : result A
}.

Arguments mkGen {Y A} yielded outcome.

Definition gen_ret {Y A} (a : A) : Gen Y A := mkGen [] (Ok a).

Definition gen_bind {Y A B} (g : Gen Y A) (k : A -> Gen Y B) : Gen Y B :=
  match outcome g with
  | Ok a => mkGen (yielded g ++ yielded (k a)) (outcome (k a))
  | Raise e => mkGen (yielded g) (Raise e)
  end.

#[export] Instance Monad_Gen (Y : Type) : Monad (Gen Y) := {
  ret := @gen_ret Y;
  bind := @gen_bind Y
}.

(** [yield y] *)
Definition yield {Y} (y : Y) : Gen Y unit := mkGen [y] (Ok tt).

(** A call that may raise, inside a generator. *)
Definition gen_lift {Y A} (r : result A) : Gen Y A := mkGen [] r.

(** [if b: body] *)
Definition gen_when {Y} (b : bool) (body : Gen Y unit) : Gen Y unit :=
  if b then body else ret tt.

(** *** State and exceptions *)

Definition ST (S A : Type) : Type := S -> result A * S.

Definition st_ret {S A} (a : A) : ST S A := fun s => (Ok a, s).

Definition st_bind {S A B} (c : ST S A) (k : A -> ST S B) : ST S B :=
  fun s =>
    match c s with
    | (Ok a, s') => k a s'
    | (Raise e, s') => (Raise e, s')
    end.

#[export] Instance Monad_ST (S : Type) : Monad (ST S) := {
  ret := @st_ret S;
  bind := @st_bind S
}.

Definition st_raise {S A} (e : exn) : ST S A := fun s => (Raise e, s).

(** [try: body / except Exception as e: handler e] *)
Definition try_except {S A} (body : ST S A) (handler : exn -> ST S A)
  : ST S A :=
  fun s =>
    match body s with
    | (Ok a, s') => (Ok a, s')
    | (Raise e, s') => handler e s'
    end.

(** ** Data of the chat module *)

(** [class Sender(StrEnum)] *)
Inductive Sender : Type := USER | BOT | TOOL.

Definition Sender_value (s : Sender) : pystr :=
  match s with
  | USER => lit "user"
  | BOT => lit "assistant"
  | TOOL => lit "tool"
  end.

(** [computer_use_demo.tools.ToolResult]: three optional strings. *)
Record ToolResult := mkToolResult {
  output : option pystr;
  error : option pystr;
  base64_image : option pystr
}.

(** What a callback can be handed.  [beta] tells [BetaTextBlock] from
    [TextBlock] and [BetaToolUseBlock] from [ToolUseBlock]; [Other] is a
    value of any other class, named by its class. *)
Inductive content (Input : Type) : Type :=
| Str (s : pystr)
| TextBlock (beta : bool) (text : pystr)
| ToolUseBlock (beta : bool) (name : pystr) (input : Input)
| ToolResultC (r : ToolResult)
| Other (cls : string).

Arguments Str {Input} s.
Arguments TextBlock {Input} beta text.
Arguments ToolUseBlock {Input} beta name input.
Arguments ToolResultC {Input} r.
Arguments Other {Input} cls%_string.

(** What [output_callback] yields: a [str], or a [gr.Image] holding the
    decoded bytes. *)
Inductive fragment : Type :=
| FText (s : pystr)
| FImage (value : list byte).

Definition is_image (f : fragment) : bool :=
  match f with
  | FText _ => false
  | FImage _ => true
  end.

(** The value of an optional string that has been tested to be true. *)
Definition the (o : option pystr) : pystr :=
  match o with
  | Some s => s
  | None => []
  end.

Definition newline : pystr := [10%N].

(** One entry of the chat history: a dict with the keys ["role"] and
    ["content"]. *)
Record ChatTurn := mkTurn {
  role : pystr;
  content_of : pystr
}.

(** [TextBlock(type="text", text=...)] inside a message. *)
Record Block := mkBlock {
  block_type : pystr;
  block_text : pystr
}.

(** One message handed to the agent loop. *)
Record Message := mkMessage {
  msg_role : pystr;
  msg_content : list Block
}.

(** The message of [str + gr.Image]; the class name stands between
    double quotes (code point 34). *)
Definition TypeError_concat : exn :=
  Exn "TypeError"
    (lit "can only concatenate str (not " ++ [34%N] ++ lit "Image"
       ++ [34%N] ++ lit ") to str").

(** [bot_response += partial_response]: [str + str] concatenates, and
    [str + gr.Image] is a [TypeError]. *)
Definition str_iadd (bot_response : pystr) (partial_response : fragment)
  : result pystr :=
  match partial_response with
  | FText s => Ok (bot_response ++ s)
  | FImage _ => Raise TypeError_concat
  end.

(** *** Names *)

(** The names bound when the body of [chat] runs: the imports of lines
    5 to 24, the definitions of the module, and the builtins used. *)
Definition module_names : list string :=
  ["asyncio"; "base64"; "os"; "datetime"; "StrEnum"; "partial";
   "PosixPath"; "cast"; "gr"; "APIResponse"; "TextBlock"; "BetaMessage";
   "BetaTextBlock"; "BetaToolUseBlock"; "PROVIDER_TO_DEFAULT_MODEL_NAME";
   "APIProvider"; "sampling_loop"; "ToolResult"; "CONFIG_DIR";
   "API_KEY_FILE"; "WARNING_TEXT"; "Sender"; "load_from_storage";
   "save_to_storage"; "validate_auth"; "chat"; "create_app";
   "str"; "isinstance"]%string.

Definition NameError (name : string) : exn :=
  Exn "NameError" (lit "name '" ++ lit name ++ lit "' is not defined").

(** Loading one name. *)
Definition load_name (name : string) : result unit :=
  if existsb (String.eqb name) module_names then Ok tt
  else Raise (NameError name).

(** Loading the names of an expression, from left to right. *)
Fixpoint load_names (names : list string) : result unit :=
  match names with
  | [] => Ok tt
  | name :: names' =>
      match load_name name with
      | Ok _ => load_names names'
      | Raise e => Raise e
      end
  end.

Section Chat.

(** The [input] of a tool-use block and its rendering by an f-string. *)
Variable Input : Type.
Variable py_str : Input -> pystr.

(** [base64.b64decode] on a [str]. *)
Variable b64decode : pystr -> result (list byte).

(** Lines 74 to 80, the body of the branch for a [ToolResult];
    [gr.Image(value=...)] is taken to hold the bytes it is given. *)
Definition on_tool_result (hide_images : bool) (r : ToolResult)
  : Gen fragment unit :=
  gen_when (opt_truthy (output r))
    (yield (FText (the (output r)))) ;;
  gen_when (opt_truthy (error r))
    (yield (FText (lit "Error: " ++ the (error r)))) ;;
  gen_when (opt_truthy (base64_image r) && negb hide_images)
    (value <- gen_lift (b64decode (the (base64_image r))) ;;
     yield (FImage value)).

(** [async def output_callback(sender, content)], closed over
    [hide_images].  Each [isinstance] test first loads the class names
    of its second argument; a test is reached only when the tests before
    it have failed. *)
Definition output_callback (hide_images : bool) (sender : Sender)
    (c : content Input) : Gen fragment unit :=
  gen_lift (load_names ["str"]%string) ;;
  match c with
  | Str s => yield (FText s)
  | _ =>
      gen_lift (load_names ["BetaTextBlock"; "TextBlock"]%string) ;;
      match c with
      | TextBlock _ text => yield (FText text)
      | _ =>
          gen_lift (load_names ["BetaToolUseBlock"; "ToolUseBlock"]%string) ;;
          match c with
          | ToolUseBlock _ name input =>
              yield (FText (lit "Tool Use: " ++ name ++ newline
                              ++ lit "Input: " ++ py_str input))
          | _ =>
              gen_lift (load_names ["ToolResult"]%string) ;;
              match c with
              | ToolResultC r => on_tool_result hide_images r
              | _ => ret tt
              end
          end
      end
  end.

(** *** The agent loop, as [chat] sees it *)

(** Keyword arguments of the call [sampling_loop(...)]. *)
Record LoopArgs := mkLoopArgs {
  system_prompt_suffix : pystr;
  model_arg : pystr;
  provider_arg : pystr;
  messages : list Message;
  output_callback_arg : content Input -> Gen fragment unit;
  tool_output_callback_arg : content Input -> Gen fragment unit;
  api_key_arg : pystr;
  only_n_most_recent_images_arg : N
}.

(** What [chat] does that can be observed from outside, in order. *)
Inductive event : Type :=
| EvAppend (t : ChatTurn)
| EvLoop (args : LoopArgs)
| EvYield (snapshot : pystr).

(** The state [chat] runs in: the history list shared with the caller
    and the events so far. *)
Record cstate := mkCState {
  st_history : list ChatTurn;
  st_trace : list event
}.

Definition emit (ev : event) : ST cstate unit :=
  fun s => (Ok tt, mkCState (st_history s) (st_trace s ++ [ev])).

(** [history.append(t)] *)
Definition history_append (t : ChatTurn) : ST cstate unit :=
  fun s => (Ok tt, mkCState (st_history s ++ [t])
                            (st_trace s ++ [EvAppend t])).

Definition get_history : ST cstate (list ChatTurn) :=
  fun s => (Ok (st_history s), s).

Definition st_lift {A} (r : result A) : ST cstate A :=
  fun s => (r, s).

(** The body of an [async for] over the values a generator yields. *)
Fixpoint for_each {Y A} (ys : list Y) (acc : A)
    (body : A -> Y -> ST cstate A) : ST cstate A :=
  match ys with
  | [] => ret acc
  | y :: ys' => acc' <- body acc y ;; for_each ys' acc' body
  end.

(** [async for y in g: acc = body(acc, y)]; when [g] ends by raising,
    so does the loop. *)
Definition async_for {Y A} (g : Gen Y unit) (acc : A)
    (body : A -> Y -> ST cstate A) : ST cstate A :=
  acc' <- for_each (yielded g) acc body ;;
  match outcome g with
  | Ok _ => ret acc'
  | Raise e => st_raise e
  end.

(** The agent loop [sampling_loop] of [computer_use_demo.loop]: for
    [chat] it is an async generator built from the keyword arguments. *)
Variable sampling_loop : LoopArgs -> Gen fragment unit.

Definition to_message (m : ChatTurn) : Message :=
  mkMessage (role m) [mkBlock (lit "text") (content_of m)].

(** The body of the [async for] of [chat]:
    [bot_response += partial_response; yield bot_response]. *)
Definition accumulate (bot_response : pystr) (partial_response : fragment)
  : ST cstate pystr :=
  bot_response <- st_lift (str_iadd bot_response partial_response) ;;
  emit (EvYield bot_response) ;;
  ret bot_response.

(** [async def chat(message, history, api_key, provider, model,
    custom_system_prompt, only_n_most_recent_images, hide_images)];
    [history] is the [st_history] of the state. *)
Definition chat (message api_key provider model custom_system_prompt
    : pystr) (only_n_most_recent_images : N) (hide_images : bool)
  : ST cstate (list ChatTurn) :=
  history_append (mkTurn (lit "user") message) ;;
  history <- get_history ;;
  let messages := map to_message history in
  let args :=
    mkLoopArgs custom_system_prompt model provider messages
      (output_callback hide_images BOT)
      (output_callback hide_images TOOL)
      api_key only_n_most_recent_images in
  emit (EvLoop args) ;;
  bot_response <-
    async_for (sampling_loop args) empty_str accumulate ;;
  history_append (mkTurn (lit "assistant") bot_response) ;;
  get_history.

(** The keyword arguments [chat] calls the loop with, for the history
    [history] that already holds the new user turn. *)
Definition chat_loop_args (history : list ChatTurn)
    (api_key provider model custom_system_prompt : pystr)
    (only_n_most_recent_images : N) (hide_images : bool) : LoopArgs :=
  mkLoopArgs custom_system_prompt model provider (map to_message history)
    (output_callback hide_images BOT)
    (output_callback hide_images TOOL)
    api_key only_n_most_recent_images.

End Chat.

Arguments EvAppend {Input} t.
Arguments EvYield {Input} snapshot.

(** The snapshots [chat] has yielded to its caller, in order. *)
Fixpoint snapshots {Input} (tr : list (event Input)) : list pystr :=
  match tr with
  | [] => []
  | EvYield s :: tr' => s :: snapshots tr'
  | _ :: tr' => snapshots tr'
  end.

(** The event is a call of the agent loop. *)
Definition is_loop_call {Input} (ev : event Input) : bool :=
  match ev with
  | EvLoop _ => true
  | _ => false
  end.

(** The running values of [bot_response] while the texts [ts] are added
    to [acc] one by one. *)
Fixpoint running (acc : pystr) (ts : list pystr) : list pystr :=
  match ts with
  | [] => []
  | t :: ts' => (acc ++ t) :: running (acc ++ t) ts'
  end.

(** ** The agent loop *)

(** The channel a content value arrives on. *)
Inductive Origin : Type := FromAssistant | FromTool.

Section AgentLoop.

Variable Input : Type.

Definition callback_of (args : LoopArgs Input) (o : Origin)
  : content Input -> Gen fragment unit :=
  match o with
  | FromAssistant => output_callback_arg args
  | FromTool => tool_output_callback_arg args
  end.

(** Every content value goes to the callback of its channel, and what
    the callback yields is yielded on; an exception of the callback
    ends the delivery. *)
Fixpoint deliver (args : LoopArgs Input)
    (script : list (Origin * content Input)) : Gen fragment unit :=
  match script with
  | [] => ret tt
  | (o, c) :: script' => callback_of args o c ;; deliver args script'
  end.

(** Modelled from the spec: [sampling_loop] of [computer_use_demo.loop]
    is not part of the sources.  The spec has the loop push one content
    value at a time into one of the two callbacks, each fragment being
    appended and emitted at once, and end by completing or by failing.
    [script] is what the model and the tools produce during the run and
    [ending] is how the loop itself ends after the last value. *)
Definition sampling_loop_model (script : list (Origin * content Input))
    (ending : result unit) (args : LoopArgs Input) : Gen fragment unit :=
  deliver args script ;; gen_lift ending.

End AgentLoop.

(** ** A base64 decoder for the examples

    [base64.b64decode] belongs to the Python library; the embedding takes
    it as a parameter.  The examples below need one concrete decoder: this
    one follows the non-strict decoder of CPython ([binascii.a2b_base64]):
    characters outside the alphabet are skipped, padding ends a quad, and
    data left over in an unfinished quad is an error. *)

Definition b64_value (c : N) : option N :=
  (if (65 <=? c) && (c <=? 90) then Some (c - 65)
   else if (97 <=? c) && (c <=? 122) then Some (c - 71)
   else if (48 <=? c) && (c <=? 57) then Some (c + 4)
   else if c =? 43 then Some 62
   else if c =? 47 then Some 63
   else None)%N.

Definition byte_of_N (n : N) : byte :=
  match Byte.of_N (n mod 256) with
  | Some b => b
  | None => x00
  end.

(** The two errors of the decoder: an unfinished group of two or three
    characters, and one character left over after [written] bytes. *)
Definition Incorrect_padding : exn :=
  Exn "binascii.Error" (lit "Incorrect padding").

Definition Invalid_length (written : nat) : exn :=
  Exn "binascii.Error"
    (lit "Invalid base64-encoded string: number of data characters ("
       ++ lit (NilZero.string_of_uint
                 (N.to_uint (N.of_nat written / 3 * 4 + 1)))
       ++ lit ") cannot be 1 more than a multiple of 4").

(** [quad_pos] is the position in the current group of four characters,
    [leftchar] the bits not yet written, [pads] the padding seen since the
    last data character; the result is in reverse. *)
Fixpoint a2b_base64 (s : pystr) (quad_pos leftchar pads : N)
    (acc : list byte) : result (list byte) :=
  match s with
  | [] =>
      if (quad_pos =? 0)%N then Ok (rev acc)
      else if (quad_pos =? 1)%N then Raise (Invalid_length (length acc))
      else Raise Incorrect_padding
  | c :: s' =>
      if (c =? 61)%N then
        if (2 <=? quad_pos)%N then
          if (4 <=? quad_pos + (pads + 1))%N then Ok (rev acc)
          else a2b_base64 s' quad_pos leftchar (pads + 1)%N acc
        else a2b_base64 s' quad_pos leftchar pads acc
      else
        match b64_value c with
        | None => a2b_base64 s' quad_pos leftchar pads acc
        | Some v =>
            (if quad_pos =? 0 then a2b_base64 s' 1 v 0 acc
             else if quad_pos =? 1 then
               a2b_base64 s' 2 (N.land v 15) 0
                 (byte_of_N (N.lor (N.shiftl leftchar 2) (N.shiftr v 4))
                    :: acc)
             else if quad_pos =? 2 then
               a2b_base64 s' 3 (N.land v 3) 0
                 (byte_of_N (N.lor (N.shiftl leftchar 4) (N.shiftr v 2))
                    :: acc)
             else
               a2b_base64 s' 0 0 0
                 (byte_of_N (N.lor (N.shiftl leftchar 6) v) :: acc))%N
        end
  end.

Definition b64decode_py (s : pystr) : result (list byte) :=
  if forallb (fun c => (c <? 128)%N) s
  then a2b_base64 s 0 0 0 []
  else Raise (Exn "ValueError"
                (lit "string argument should contain only ASCII characters")).

(** ** Persistence *)

(** A path, as its components. *)
Definition PosixPath := list pystr.

(** [p / name] *)
Definition truediv (p : PosixPath) (name : pystr) : PosixPath := p ++ [name].

(** The file operations of [pathlib] that the module calls; each of them
    can raise and can change the world. *)
Class FileSystem (W : Type) : Type := {
  path_exists : PosixPath -> W -> result bool * W;
  path_read_text : PosixPath -> W -> result pystr * W;
  path_mkdir : PosixPath -> W -> result unit * W;
  path_write_text : PosixPath -> pystr -> W -> result N * W;
  path_chmod : PosixPath -> N -> W -> result unit * W
}.

(** The world of the persistence helpers: the files and what has been
    printed. *)
Record io_state (W : Type) : Type := mkIO {
  world : W;
  stdout : list pystr
}.

Arguments mkIO {W} world stdout.

Section Storage.

Context {W : Type} {FS : FileSystem W}.

(** [PosixPath("~").expanduser()] and [os.environ]. *)
Variable home : PosixPath.
Variable environ : pystr -> option pystr.

Definition on_world {A} (op : W -> result A * W) : ST (io_state W) A :=
  fun s => let (r, w) := op (world s) in (r, mkIO w (stdout s)).

Definition print (line : pystr) : ST (io_state W) unit :=
  fun s => (Ok tt, mkIO (world s) (stdout s ++ [line])).

(** [os.getenv(key, default)] *)
Definition getenv (key default : pystr) : pystr :=
  match environ key with
  | Some v => v
  | None => default
  end.

Definition CONFIG_DIR : PosixPath := truediv home (lit ".anthropic").

(** [def load_from_storage(filename)].  The [try] block either returns
    the data ([Some]) or falls through ([None]) to the [return None]
    after the handler. *)
Definition load_from_storage (filename : pystr)
  : ST (io_state W) (option pystr) :=
  returned <-
    try_except
      (let file_path := truediv CONFIG_DIR filename in
       found <- on_world (path_exists file_path) ;;
       if found : bool then
         text <- on_world (path_read_text file_path) ;;
         let data := strip text in
         if truthy data then ret (Some data) else ret None
       else ret None)
      (fun e =>
         print (lit "Debug: Error loading " ++ filename ++ lit ": "
                  ++ exn_msg e) ;;
         ret None) ;;
  match returned with
  | Some data => ret (Some data)
  | None => ret None
  end.

(** [def save_to_storage(filename, data)] *)
Definition save_to_storage (filename data : pystr)
  : ST (io_state W) unit :=
  try_except
    (on_world (path_mkdir CONFIG_DIR) ;;
     let file_path := truediv CONFIG_DIR filename in
     on_world (path_write_text file_path data) ;;
     on_world (path_chmod file_path 384%N))
    (fun e =>
       print (lit "Debug: Error saving " ++ filename ++ lit ": "
                ++ exn_msg e)).

(** [load_from_storage(filename) or default], the form of both reads in
    [create_app]. *)
Definition load_from_storage_or (filename default : pystr)
  : ST (io_state W) pystr :=
  stored <- load_from_storage filename ;;
  ret (py_or stored default).

(** [create_app]: the initial value of the API key box,
    [load_from_storage("api_key") or os.getenv("ANTHROPIC_API_KEY", "")]. *)
Definition create_app_api_key : ST (io_state W) pystr :=
  load_from_storage_or (lit "api_key")
    (getenv (lit "ANTHROPIC_API_KEY") empty_str).

(** [create_app]: the initial value of the system prompt box,
    [load_from_storage("system_prompt") or ""]. *)
Definition create_app_custom_system_prompt : ST (io_state W) pystr :=
  load_from_storage_or (lit "system_prompt") empty_str.

(** How a read of the file [p] goes in the world [w]. *)
Inductive read_outcome : Type :=
| Absent
| ExistsFailed (e : exn)
| ReadFailed (e : exn)
| ReadOk (text : pystr).

Definition classify_read (p : PosixPath) (w : W) : read_outcome :=
  match path_exists p w with
  | (Ok true, w1) =>
      match path_read_text p w1 with
      | (Ok text, _) => ReadOk text
      | (Raise e, _) => ReadFailed e
      end
  | (Ok false, _) => Absent
  | (Raise e, _) => ExistsFailed e
  end.

End Storage.

(** ** A disk for the examples

    Files with their text and mode; a faulty disk fails every call with
    an [OSError]. *)

Fixpoint list_eqb {A} (eqb : A -> A -> bool) (l1 l2 : list A) : bool :=
  match l1, l2 with
  | [], [] => true
  | x :: l1', y :: l2' => eqb x y && list_eqb eqb l1' l2'
  | _, _ => false
  end.

Definition path_eqb : PosixPath -> PosixPath -> bool :=
  list_eqb (list_eqb N.eqb).

Record Disk := mkDisk {
  disk_files : list (PosixPath * (pystr * N));
  disk_faulty : bool
}.

Definition EIO : exn := Exn "OSError" (lit "[Errno 5] Input/output error").

Definition ENOENT : exn :=
  Exn "FileNotFoundError" (lit "[Errno 2] No such file or directory").

Definition disk_find (p : PosixPath) (d : Disk) : option (pystr * N) :=
  option_map snd (find (fun e => path_eqb (fst e) p) (disk_files d)).

Definition disk_put (p : PosixPath) (v : pystr * N) (d : Disk) : Disk :=
  mkDisk ((p, v)
            :: filter (fun e => negb (path_eqb (fst e) p)) (disk_files d))
         (disk_faulty d).

Definition guarded {A} (d : Disk) (r : result A * Disk) : result A * Disk :=
  if disk_faulty d then (Raise EIO, d) else r.

#[export] Instance FileSystem_Disk : FileSystem Disk := {
  path_exists p d :=
    guarded d (Ok (match disk_find p d with Some _ => true | None => false end), d);
  path_read_text p d :=
    guarded d
      match disk_find p d with
      | Some (text, _) => (Ok text, d)
      | None => (Raise ENOENT, d)
      end;
  path_mkdir p d := guarded d (Ok tt, d);
  path_write_text p data d :=
    guarded d
      match disk_find p d with
      | Some (_, mode) => (Ok (N.of_nat (length data)), disk_put p (data, mode) d)
      | None => (Ok (N.of_nat (length data)), disk_put p (data, 420%N) d)
      end;
  path_chmod p mode d :=
    guarded d
      match disk_find p d with
      | Some (text, _) => (Ok tt, disk_put p (text, mode) d)
      | None => (Raise ENOENT, d)
      end
}.

(** An environment that sets [ANTHROPIC_API_KEY] and nothing else. *)
Definition demo_environ (key : pystr) : option pystr :=
  if list_eqb N.eqb key (lit "ANTHROPIC_API_KEY")
  then Some (lit "sk-env") else None.

Definition demo_home : PosixPath := [lit "home"; lit "user"].

(** A disk whose [api_key] file holds white space only. *)
Definition blank_disk : Disk :=
  mkDisk
    [(truediv (CONFIG_DIR demo_home) (lit "api_key"),
      ([32; 10; 9; 160]%N, 384%N))]
    false.

(** ** Descriptions used in the statements *)

(** The texts a tool result contributes: its output when that is not
    empty, then its error, marked, when that is not empty. *)
Definition tool_result_texts (r : ToolResult) : list pystr :=
  (if opt_truthy (output r) then [the (output r)] else [])
  ++ (if opt_truthy (error r) then [lit "Error: " ++ the (error r)] else []).

(** The user turn and the assistant turn of one run. *)
Definition user_turn (message : pystr) : ChatTurn :=
  mkTurn (lit "user") message.

Definition assistant_turn (bot_response : pystr) : ChatTurn :=
  mkTurn (lit "assistant") bot_response.

(** A turn of the assistant is in the history. *)
Definition has_assistant_turn (h : list ChatTurn) : bool :=
  existsb (fun t => list_eqb N.eqb (role t) (lit "assistant")) h.

(** A script of plain strings, each on its channel. *)
Definition text_script {Input} (pre : list (Origin * pystr))
  : list (Origin * content Input) :=
  map (fun p => (fst p, Str (snd p))) pre.

(** ** Runs used in the examples *)

(** The tool input of the examples is already rendered. *)
Definition demo_chat (script : list (Origin * content pystr))
    (ending : result unit) (hide_images : bool) (message : pystr)
    (history : list ChatTurn) : result (list ChatTurn) * cstate pystr :=
  chat (fun i => i) b64decode_py (sampling_loop_model script ending)
    message (lit "sk-demo") (lit "anthropic") (lit "claude") empty_str 10%N
    hide_images (mkCState history []).

Definition upstream_failure : exn :=
  Exn "APIError" (lit "upstream failure").

(** ** Further parts of the module *)

(** The string does not begin with white space. *)
Definition starts_clean (s : pystr) : bool :=
  match s with
  | [] => true
  | c :: _ => negb (isspace c)
  end.

(** The string does not end with white space. *)
Definition ends_clean (s : pystr) : bool := starts_clean (rev s).

(** The lines the two handlers print. *)
Definition debug_loading (filename : pystr) (e : exn) : pystr :=
  lit "Debug: Error loading " ++ filename ++ lit ": " ++ exn_msg e.

Definition debug_saving (filename : pystr) (e : exn) : pystr :=
  lit "Debug: Error saving " ++ filename ++ lit ": " ++ exn_msg e.

Definition is_raise {A} (r : result A) : bool :=
  match r with
  | Ok _ => false
  | Raise _ => true
  end.

Section Auth.

(** The member [APIProvider.ANTHROPIC] of the enumeration of
    [computer_use_demo.loop]; members of a [StrEnum] compare as their
    string values. *)
Variable ANTHROPIC : pystr.

(** [def validate_auth(provider, api_key)]: the message, or [None] when
    the function falls off its end. *)
Definition validate_auth (provider : pystr) (api_key : option pystr)
  : option pystr :=
  if list_eqb N.eqb provider ANTHROPIC then
    if negb (opt_truthy api_key)
    then Some (lit "Enter your Anthropic API key to continue.")
    else None
  else None.

End Auth.

Section Handlers.

Context {W : Type} {FS : FileSystem W}.
Variable home : PosixPath.

(** [api_key.change(lambda x: save_to_storage("api_key", x), ...)] *)
Definition on_api_key_change (x : pystr) : ST (io_state W) unit :=
  save_to_storage home (lit "api_key") x.

(** [custom_system_prompt.change(lambda x:
    save_to_storage("system_prompt", x), ...)] *)
Definition on_custom_system_prompt_change (x : pystr)
  : ST (io_state W) unit :=
  save_to_storage home (lit "system_prompt") x.

(** How the three calls of a save go in the world [w], with the world
    the last call made leaves. *)
Inductive write_outcome : Type :=
| MkdirFailed (e : exn) (w : W)
| WriteFailed (e : exn) (w : W)
| ChmodFailed (e : exn) (w : W)
| Written (w : W).

Definition classify_write (filename data : pystr) (w : W) : write_outcome :=
  match path_mkdir (CONFIG_DIR home) w with
  | (Raise e, w1) => MkdirFailed e w1
  | (Ok _, w1) =>
      match path_write_text (truediv (CONFIG_DIR home) filename) data w1 with
      | (Raise e, w2) => WriteFailed e w2
      | (Ok _, w2) =>
          match path_chmod (truediv (CONFIG_DIR home) filename) 384%N w2 with
          | (Raise e, w3) => ChmodFailed e w3
          | (Ok _, w3) => Written w3
          end
      end
  end.

End Handlers.

(** The texts a run yields before its first image. *)
Fixpoint leading_texts (ys : list fragment) : list pystr :=
  match ys with
  | FText t :: ys' => t :: leading_texts ys'
  | _ => []
  end.

(** The exception a result carries, if any. *)
Definition raised {A} (r : result A) : option exn :=
  match r with
  | Ok _ => None
  | Raise e => Some e
  end.

(** The history after the appends a trace records, from [h]. *)
Fixpoint replay {Input} (h : list ChatTurn) (tr : list (event Input))
  : list ChatTurn :=
  match tr with
  | [] => h
  | EvAppend t :: tr' => replay (h ++ [t]) tr'
  | _ :: tr' => replay h tr'
  end.

(** The content values of a script that reach a callback: delivery ends
    with the first value whose callback raises. *)
Fixpoint delivered {Input} (args : LoopArgs Input)
    (script : list (Origin * content Input))
  : list (Origin * content Input) :=
  match script with
  | [] => []
  | (o, c) :: script' =>
      (o, c) :: match outcome (callback_of args o c) with
                | Ok _ => delivered args script'
                | Raise _ => []
                end
  end.

(** The fragments the callbacks produce for these values, in order. *)
Definition fragments_of {Input} (args : LoopArgs Input)
    (chunks : list (Origin * content Input)) : list fragment :=
  flat_map (fun p => yielded (callback_of args (fst p) (snd p))) chunks.

(** The message lists the agent loop has been called with, in order. *)
Fixpoint loop_calls {Input} (tr : list (event Input))
  : list (list Message) :=
  match tr with
  | [] => []
  | EvLoop args :: tr' => messages args :: loop_calls tr'
  | _ :: tr' => loop_calls tr'
  end.

(** [a] is a prefix of [b]. *)
Fixpoint prefixb (a b : pystr) : bool :=
  match a, b with
  | [], _ => true
  | x :: a', y :: b' => N.eqb x y && prefixb a' b'
  | _ :: _, [] => false
  end.

(** Every string of the list is a prefix of the next one. *)
Fixpoint increasing (l : list pystr) : bool :=
  match l with
  | a :: (b :: _) as l' => prefixb a b && increasing l'
  | _ => true
  end.

(** An agent loop that answers with the text of the last message, and
    one that fails on a first message and answers afterwards. *)
Definition last_text {Input} (args : LoopArgs Input) : pystr :=
  match rev (messages args) with
  | m :: _ => concat (map block_text (msg_content m))
  | [] => []
  end.

Definition echo_loop {Input} (args : LoopArgs Input) : Gen fragment unit :=
  mkGen [FText (lit "You said: "); FText (last_text args)] (Ok tt).

Definition flaky_loop {Input} (args : LoopArgs Input) : Gen fragment unit :=
  match messages args with
  | [_] => mkGen [FText (lit "Working")] (Raise upstream_failure)
  | _ => echo_loop args
  end.

(** A disk whose [api_key] file holds a key between white space. *)
Definition padded_disk : Disk :=
  mkDisk
    [(truediv (CONFIG_DIR demo_home) (lit "api_key"),
      ([32; 115; 107; 45; 49; 10]%N, 420%N))]
    false.

(** * Properties *)

Unset Implicit Arguments.

(** ** Strings *)

Lemma lstrip_all_space (s : pystr) :
  forallb isspace s = true -> lstrip s = [].
Proof.
  induction s as [|c s IH]; simpl; intros Hs.
  - reflexivity.
  - apply andb_prop in Hs. destruct Hs as [Hc Hrest].
    rewrite Hc. now apply IH.
Qed.

Lemma strip_all_space (s : pystr) :
  forallb isspace s = true -> strip s = [].
Proof.
  intros Hs. unfold strip, rstrip.
  rewrite (lstrip_all_space s Hs). reflexivity.
Qed.

(** ** The normalizer [output_callback] *)

Section NormalizerFacts.

Variable Input : Type.
Variable py_str : Input -> pystr.
Variable b64decode : pystr -> result (list byte).

Let normalize := output_callback py_str b64decode.

(** The whole run of lines 74 to 80 on a tool result. *)
Lemma on_tool_result_run (hide_images : bool) (r : ToolResult) :
  on_tool_result b64decode hide_images r =
    if opt_truthy (base64_image r) && negb hide_images then
      match b64decode (the (base64_image r)) with
      | Ok value =>
          mkGen (map FText (tool_result_texts r) ++ [FImage value]) (Ok tt)
      | Raise e => mkGen (map FText (tool_result_texts r)) (Raise e)
      end
    else mkGen (map FText (tool_result_texts r)) (Ok tt).
Proof.
  unfold on_tool_result, tool_result_texts.
  destruct r as [o e i]; cbn [output error base64_image].
  destruct (opt_truthy o), (opt_truthy e),
    (opt_truthy i && negb hide_images);
    cbn; try reflexivity;
    destruct (b64decode (the i)); reflexivity.
Qed.

(** The whole run of the callback: the two tests for text succeed
    before line 71 is reached; every other content gets to line 71, where
    loading [ToolUseBlock] raises. *)
Lemma output_callback_run (hide_images : bool) (sender : Sender)
    (c : content Input) :
  normalize hide_images sender c =
    match c with
    | Str s => mkGen [FText s] (Ok tt)
    | TextBlock _ text => mkGen [FText text] (Ok tt)
    | _ => mkGen [] (Raise (NameError "ToolUseBlock"))
    end.
Proof. destruct c; reflexivity. Qed.

End NormalizerFacts.


(** ** The accumulation loop of [chat] *)

Section ChatFacts.

Variable Input : Type.
Variable py_str : Input -> pystr.
Variable b64decode : pystr -> result (list byte).

Let step := @accumulate Input.

Lemma cstate_eta (s : cstate Input) :
  mkCState (st_history s) (st_trace s) = s.
Proof. destruct s; reflexivity. Qed.

(** The loop body on a text: the text is appended and the new value of
    [bot_response] is yielded. *)
Lemma accumulate_text (acc t : pystr) (s : cstate Input) :
  step acc (FText t) s =
    (Ok (acc ++ t),
     mkCState (st_history s) (st_trace s ++ [EvYield (acc ++ t)])).
Proof. reflexivity. Qed.

(** The loop body on an image: [+=] raises and nothing is yielded. *)
Lemma accumulate_image (acc : pystr) (value : list byte)
    (s : cstate Input) :
  step acc (FImage value) s = (str_iadd acc (FImage value), s).
Proof. reflexivity. Qed.

Lemma for_each_app (xs ys : list fragment) :
  forall (acc : pystr) (s : cstate Input),
    for_each (xs ++ ys) acc step s =
      match for_each xs acc step s with
      | (Ok acc', s') => for_each ys acc' step s'
      | (Raise e, s') => (Raise e, s')
      end.
Proof.
  induction xs as [|x xs IH]; intros acc s.
  - reflexivity.
  - cbn [app for_each bind Monad_ST]. unfold st_bind.
    destruct (step acc x s) as [[acc'|e] s'].
    + apply IH.
    + reflexivity.
Qed.

(** Texts only: every text is appended and followed by one snapshot. *)
Lemma for_each_texts (ts : list pystr) :
  forall (acc : pystr) (s : cstate Input),
    for_each (map FText ts) acc step s =
      (Ok (acc ++ concat ts),
       mkCState (st_history s)
                (st_trace s ++ map EvYield (running acc ts))).
Proof.
  induction ts as [|t ts IH]; intros acc s.
  - cbn. rewrite !app_nil_r, cstate_eta. reflexivity.
  - cbn [map for_each bind Monad_ST]. unfold st_bind.
    rewrite accumulate_text, IH. cbn [st_history st_trace concat running map].
    rewrite <- !app_assoc. reflexivity.
Qed.

(** The loop never touches the history and only adds snapshots to the
    trace. *)
Lemma for_each_yields (ys : list fragment) :
  forall (acc : pystr) (s : cstate Input),
    exists l : list pystr,
      snd (for_each ys acc step s) =
        mkCState (st_history s) (st_trace s ++ map EvYield l).
Proof.
  induction ys as [|y ys IH]; intros acc s.
  - exists []. cbn. now rewrite app_nil_r, cstate_eta.
  - cbn [for_each bind Monad_ST]. unfold st_bind.
    destruct y as [t|value].
    + rewrite accumulate_text.
      destruct (IH (acc ++ t)
                  (mkCState (st_history s)
                            (st_trace s ++ [EvYield (acc ++ t)]))) as [l Hl].
      exists ((acc ++ t) :: l). rewrite Hl. cbn.
      now rewrite <- app_assoc.
    + rewrite accumulate_image. cbn. exists [].
      cbn. now rewrite app_nil_r, cstate_eta.
Qed.

Lemma snapshots_app (tr1 tr2 : list (event Input)) :
  snapshots (tr1 ++ tr2) = snapshots tr1 ++ snapshots tr2.
Proof.
  induction tr1 as [|ev tr1 IH]; [reflexivity|].
  destruct ev; cbn; now rewrite IH.
Qed.

Lemma snapshots_yields (l : list pystr) :
  snapshots (map (@EvYield Input) l) = l.
Proof. induction l as [|x l IH]; cbn; [|rewrite IH]; reflexivity. Qed.

Lemma no_loop_call_in_yields (l : list pystr) :
  existsb is_loop_call (map (@EvYield Input) l) = false.
Proof. induction l as [|x l IH]; [reflexivity|exact IH]. Qed.

Lemma running_length (ts : list pystr) :
  forall acc, length (running acc ts) = length ts.
Proof. induction ts as [|t ts IH]; intros acc; cbn; [|rewrite IH]; reflexivity. Qed.

(** *** One run of [chat], unfolded *)

Variable sampling_loop : LoopArgs Input -> Gen fragment unit.

Let run := chat py_str b64decode sampling_loop.
Let args_of := chat_loop_args py_str b64decode.

Lemma chat_run (message api_key provider model prompt : pystr)
    (only_n : N) (hide_images : bool)
    (h : list ChatTurn) (tr : list (event Input)) :
  let u := user_turn message in
  let args := args_of (h ++ [u]) api_key provider model prompt only_n
                hide_images in
  run message api_key provider model prompt only_n hide_images
      (mkCState h tr) =
    match for_each (yielded (sampling_loop args)) empty_str step
            (mkCState (h ++ [u]) (tr ++ [EvAppend u; EvLoop args])) with
    | (Ok bot_response, s) =>
        match outcome (sampling_loop args) with
        | Ok _ =>
            (Ok (st_history s ++ [assistant_turn bot_response]),
             mkCState (st_history s ++ [assistant_turn bot_response])
                      (st_trace s ++ [EvAppend (assistant_turn bot_response)]))
        | Raise e => (Raise e, s)
        end
    | (Raise e, s) => (Raise e, s)
    end.
Proof.
  intros u args. unfold run, chat, async_for.
  cbn [bind ret Monad_ST].
  unfold st_bind, history_append, get_history, emit, st_ret, st_raise.
  cbn [st_history st_trace].
  rewrite <- app_assoc. cbn [app].
  change (mkLoopArgs prompt model provider _ _ _ api_key only_n) with args.
  change (mkTurn (lit "user") message) with u.
  fold step.
  destruct (for_each (yielded (sampling_loop args)) empty_str step _)
    as [[bot|e] s]; [|reflexivity].
  destruct (outcome (sampling_loop args)) as [[]|e]; reflexivity.
Qed.

End ChatFacts.

(** ** Runs of [chat] by the shape of the loop's run *)

Section ChatRuns.

Variable Input : Type.
Variable py_str : Input -> pystr.
Variable b64decode : pystr -> result (list byte).
Variable sampling_loop : LoopArgs Input -> Gen fragment unit.

Variables message api_key provider model prompt : pystr.
Variable only_n : N.
Variable hide_images : bool.
Variable h : list ChatTurn.
Variable tr : list (event Input).

Let u := user_turn message.
Let args :=
  chat_loop_args py_str b64decode (h ++ [u]) api_key provider model prompt
    only_n hide_images.
Let result_of_run :=
  chat py_str b64decode sampling_loop message api_key provider model prompt
    only_n hide_images (mkCState h tr).

(** The loop yields the texts [ts] and then ends as [ending] says. *)
Lemma chat_text_run (ts : list pystr) (ending : result unit) :
  sampling_loop args = mkGen (map FText ts) ending ->
  result_of_run =
    match ending with
    | Ok _ =>
        let a := assistant_turn (concat ts) in
        (Ok (h ++ [u; a]),
         mkCState (h ++ [u; a])
           (tr ++ [EvAppend u; EvLoop args]
               ++ map EvYield (running empty_str ts) ++ [EvAppend a]))
    | Raise e =>
        (Raise e,
         mkCState (h ++ [u])
           (tr ++ [EvAppend u; EvLoop args]
               ++ map EvYield (running empty_str ts)))
    end.
Proof.
  intros Hrun. unfold result_of_run.
  rewrite chat_run. fold u. fold args. rewrite Hrun.
  cbn [yielded outcome]. rewrite for_each_texts.
  cbn [st_history st_trace].
  destruct ending as [[]|e]; cbn; rewrite <- !app_assoc; reflexivity.
Qed.

(** The loop yields the texts [ts] and then an image. *)
Lemma chat_image_run (ts : list pystr) (value : list byte)
    (rest : list fragment) (ending : result unit) :
  sampling_loop args = mkGen (map FText ts ++ FImage value :: rest) ending ->
  result_of_run =
    (Raise TypeError_concat,
     mkCState (h ++ [u])
       (tr ++ [EvAppend u; EvLoop args]
           ++ map EvYield (running empty_str ts))).
Proof.
  intros Hrun. unfold result_of_run.
  rewrite chat_run. fold u. fold args. rewrite Hrun.
  cbn [yielded outcome]. rewrite for_each_app, for_each_texts.
  cbn [for_each bind Monad_ST]. unfold st_bind.
  rewrite accumulate_image. cbn. rewrite <- !app_assoc. reflexivity.
Qed.

End ChatRuns.

(** ** The delivery of a script to the callbacks *)

Section DeliverFacts.

Variable Input : Type.
Variable py_str : Input -> pystr.
Variable b64decode : pystr -> result (list byte).



Variables api_key provider model prompt : pystr.
Variable only_n : N.
Variable hide_images : bool.
Variable history : list ChatTurn.

Let args :=
  chat_loop_args py_str b64decode history api_key provider model prompt
    only_n hide_images.

(** Both channels run the same generator: the sender is not looked at. *)
Lemma callback_of_chat (o : Origin) (c : content Input) :
  callback_of args o c = output_callback py_str b64decode hide_images BOT c.
Proof. destruct o, c; reflexivity. Qed.

Lemma deliver_text_script (pre : list (Origin * pystr)) :
  deliver args (text_script pre) = mkGen (map FText (map snd pre)) (Ok tt).
Proof.
  induction pre as [|[o t] pre IH]; [reflexivity|].
  cbn [text_script map deliver bind Monad_Gen fst snd].
  fold (@text_script Input pre). rewrite IH.
  destruct o; reflexivity.
Qed.

Lemma model_text_script (pre : list (Origin * pystr))
    (ending : result unit) :
  sampling_loop_model (text_script pre) ending args =
    mkGen (map FText (map snd pre)) ending.
Proof.
  unfold sampling_loop_model. cbn [bind Monad_Gen].
  rewrite deliver_text_script. unfold gen_bind. cbn.
  now rewrite app_nil_r.
Qed.

End DeliverFacts.

(** ** The persistence helpers *)

Section StorageFacts.

Context {W : Type} {FS : FileSystem W}.
Variable home : PosixPath.

Let path_of (filename : pystr) : PosixPath :=
  truediv (CONFIG_DIR home) filename.

(** The value [load_from_storage] hands back, by how the read goes. *)
Lemma load_from_storage_value (filename : pystr) (s : io_state W) :
  fst (load_from_storage home filename s) =
    Ok match classify_read (path_of filename) (world s) with
       | ReadOk text =>
           if truthy (strip text) then Some (strip text) else None
       | Absent | ExistsFailed _ | ReadFailed _ => None
       end.
Proof.
  unfold load_from_storage, classify_read, path_of, try_except, on_world.
  cbn [bind ret Monad_ST]. unfold st_bind, st_ret, print.
  destruct (path_exists _ (world s)) as [[[|]|e] w1]; cbn; try reflexivity.
  destruct (path_read_text _ w1) as [[text|e] w2]; cbn; try reflexivity.
  destruct (truthy (strip text)); reflexivity.
Qed.

(** [save_to_storage] always returns [None]. *)
Lemma save_to_storage_value (filename data : pystr) (s : io_state W) :
  fst (save_to_storage home filename data s) = Ok tt.
Proof.
  unfold save_to_storage, try_except, on_world.
  cbn [bind ret Monad_ST]. unfold st_bind, print.
  destruct (path_mkdir _ (world s)) as [[[]|e] w1]; cbn; try reflexivity.
  destruct (path_write_text _ data w1) as [[n|e] w2]; cbn; try reflexivity.
  destruct (path_chmod _ _ w2) as [[[]|e] w3]; reflexivity.
Qed.

Lemma load_from_storage_or_value (filename default : pystr)
    (s : io_state W) :
  fst (load_from_storage_or home filename default s) =
    Ok match classify_read (path_of filename) (world s) with
       | ReadOk text => if truthy (strip text) then strip text else default
       | Absent | ExistsFailed _ | ReadFailed _ => default
       end.
Proof.
  unfold load_from_storage_or. cbn [bind ret Monad_ST]. unfold st_bind.
  pose proof (load_from_storage_value filename s) as Hv.
  destruct (load_from_storage home filename s) as [r s']. cbn in Hv.
  rewrite Hv. unfold st_ret. cbn [fst]. f_equal.
  destruct (classify_read (path_of filename) (world s)); try reflexivity.
  destruct (truthy (strip text)) eqn:Ht; cbn; [rewrite Ht|]; reflexivity.
Qed.

End StorageFacts.

(** ** The claims about the normalizer *)

(** C5, the claim refuted: the empty string is yielded as a fragment, and
    [chat] answers it with one snapshot. *)
Lemma empty_text_is_one_fragment :
  yielded (output_callback (fun i : pystr => i) b64decode_py false BOT
             (Str empty_str)) = [FText empty_str]
  /\ snapshots
       (st_trace
          (snd (demo_chat [(FromAssistant, Str empty_str)] (Ok tt) false
                  (lit "hi") []))) = [empty_str].
Proof. split; reflexivity. Qed.

(** ** The claims about [chat] *)

(** C5 (as the code has it).  For every text, given as a string or as a
    text block, the callback yields exactly one text fragment equal to the
    body, the empty body included; a run of [chat] that is handed this
    one value emits exactly one snapshot, the body. *)
Theorem text_is_always_one_fragment
    (Input : Type) (py_str : Input -> pystr)
    (b64decode : pystr -> result (list byte))
    (hide_images beta : bool) (sender : Sender) (o : Origin)
    (body message api_key provider model prompt : pystr) (only_n : N)
    (h : list ChatTurn) :
  output_callback py_str b64decode hide_images sender (Str body) =
    mkGen [FText body] (Ok tt)
  /\ output_callback py_str b64decode hide_images sender
       (TextBlock beta body) = mkGen [FText body] (Ok tt)
  /\ snapshots
       (st_trace
          (snd (chat py_str b64decode
                  (sampling_loop_model [(o, Str body)] (Ok tt))
                  message api_key provider model prompt only_n hide_images
                  (mkCState h [])))) = [body]
  /\ snapshots
       (st_trace
          (snd (chat py_str b64decode
                  (sampling_loop_model [(o, TextBlock beta body)] (Ok tt))
                  message api_key provider model prompt only_n hide_images
                  (mkCState h [])))) = [body].
Proof.
  split; [reflexivity|]. split; [reflexivity|].
  split.
  - rewrite chat_text_run with (ts := [body]) (ending := Ok tt).
    + cbn [snd st_trace]. rewrite snapshots_app. cbn. reflexivity.
    + destruct o; reflexivity.
  - rewrite chat_text_run with (ts := [body]) (ending := Ok tt).
    + cbn [snd st_trace]. rewrite snapshots_app. cbn. reflexivity.
    + destruct o; reflexivity.
Qed.

(** C1, the claim refuted: the loop yields one text and then fails.
    [chat] fails with the same exception, the history holds no assistant
    turn, and no error fragment follows the one snapshot. *)
Lemma failed_loop_commits_nothing :
  let r := demo_chat [(FromAssistant, Str (lit "Working on it..."))]
             (Raise upstream_failure) false (lit "take a screenshot") [] in
  fst r = Raise upstream_failure
  /\ st_history (snd r) = [user_turn (lit "take a screenshot")]
  /\ has_assistant_turn (st_history (snd r)) = false
  /\ snapshots (st_trace (snd r)) = [lit "Working on it..."].
Proof. cbv zeta. repeat split; reflexivity. Qed.

(** C1 (as the code has it).  The loop yields the texts [ts].  When it
    then completes, [chat] appends one assistant turn holding the
    accumulated response after the user turn and returns the history.
    When it then raises, [chat] ends with the same exception, the history
    holds the user turn but no assistant turn, and the snapshots are those
    of the texts alone: no fragment is added for the failure. *)
Theorem chat_commits_when_loop_completes
    (Input : Type) (py_str : Input -> pystr)
    (b64decode : pystr -> result (list byte))
    (sampling_loop : LoopArgs Input -> Gen fragment unit)
    (message api_key provider model prompt : pystr) (only_n : N)
    (hide_images : bool) (h : list ChatTurn)
    (ts : list pystr) (ending : result unit) :
  sampling_loop
    (chat_loop_args py_str b64decode (h ++ [user_turn message]) api_key
       provider model prompt only_n hide_images) =
    mkGen (map FText ts) ending ->
  let r := chat py_str b64decode sampling_loop message api_key provider
             model prompt only_n hide_images (mkCState h []) in
  snapshots (st_trace (snd r)) = running empty_str ts
  /\ match ending with
     | Ok _ =>
         fst r = Ok (h ++ [user_turn message; assistant_turn (concat ts)])
         /\ st_history (snd r) =
              h ++ [user_turn message; assistant_turn (concat ts)]
     | Raise e =>
         fst r = Raise e /\ st_history (snd r) = h ++ [user_turn message]
     end.
Proof.
  intros Hrun r. subst r.
  rewrite chat_text_run with (ts := ts) (ending := ending) by exact Hrun.
  destruct ending as [[]|e]; cbn [fst snd st_trace st_history];
    rewrite !snapshots_app, ?snapshots_yields; cbn;
    rewrite ?app_nil_r; repeat split; reflexivity.
Qed.

(** The theorem at a run that yields one text and completes. *)
Lemma chat_commits_when_loop_completes_witness :
  sampling_loop_model [(FromAssistant, Str (lit "Here it is."))] (Ok tt)
    (chat_loop_args (fun i : pystr => i) b64decode_py
       ([] ++ [user_turn (lit "hi")]) (lit "sk-demo") (lit "anthropic")
       (lit "claude") empty_str 10%N false) =
    mkGen (map FText [lit "Here it is."]) (Ok tt)
  /\ (let r := demo_chat [(FromAssistant, Str (lit "Here it is."))] (Ok tt)
                 false (lit "hi") [] in
      snapshots (st_trace (snd r)) = running empty_str [lit "Here it is."]
      /\ fst r =
           Ok ([] ++ [user_turn (lit "hi");
                      assistant_turn (concat [lit "Here it is."])])
      /\ st_history (snd r) =
           [] ++ [user_turn (lit "hi");
                  assistant_turn (concat [lit "Here it is."])]).
Proof.
  split; [reflexivity|].
  apply (chat_commits_when_loop_completes pystr (fun i : pystr => i)
           b64decode_py
           (sampling_loop_model [(FromAssistant, Str (lit "Here it is."))]
              (Ok tt))
           (lit "hi") (lit "sk-demo") (lit "anthropic") (lit "claude")
           empty_str 10%N false [] [lit "Here it is."] (Ok tt)).
  reflexivity.
Defined.

(** The history of the examples: one earlier exchange. *)
Example earlier_history_length :
  length [user_turn (lit "hello"); assistant_turn (lit "Hi!")] = 2.
Proof. reflexivity. Qed.

(** C2, the claim refuted: after a run in which the loop fails, the
    history is longer by one turn, not by two. *)
Lemma failed_run_adds_one_turn :
  let h := [user_turn (lit "hello"); assistant_turn (lit "Hi!")] in
  let r := demo_chat [(FromTool, Str (lit "partial"))]
             (Raise upstream_failure) false (lit "go on") h in
  fst r = Raise upstream_failure
  /\ length (st_history (snd r)) = length h + 1
  /\ length (st_history (snd r)) <> length h + 2.
Proof. cbv zeta. repeat split; try reflexivity. cbn. lia. Qed.

(** C2 (as the code has it).  The loop yields the texts [ts].  When it
    completes, the history is longer by exactly two turns, the user turn
    and then the assistant turn, and the content of the assistant turn is
    the concatenation of the texts in the order they were yielded.  When
    it raises, the history is longer by exactly one turn, the user turn. *)
Theorem chat_history_growth
    (Input : Type) (py_str : Input -> pystr)
    (b64decode : pystr -> result (list byte))
    (sampling_loop : LoopArgs Input -> Gen fragment unit)
    (message api_key provider model prompt : pystr) (only_n : N)
    (hide_images : bool) (h : list ChatTurn)
    (ts : list pystr) (ending : result unit) :
  sampling_loop
    (chat_loop_args py_str b64decode (h ++ [user_turn message]) api_key
       provider model prompt only_n hide_images) =
    mkGen (map FText ts) ending ->
  let h' := st_history
              (snd (chat py_str b64decode sampling_loop message api_key
                      provider model prompt only_n hide_images
                      (mkCState h []))) in
  match ending with
  | Ok _ =>
      length h' = length h + 2
      /\ h' = h ++ [mkTurn (lit "user") message;
                    mkTurn (lit "assistant") (concat ts)]
  | Raise _ =>
      length h' = length h + 1
      /\ h' = h ++ [mkTurn (lit "user") message]
  end.
Proof.
  intros Hrun h'. subst h'.
  rewrite chat_text_run with (ts := ts) (ending := ending) by exact Hrun.
  destruct ending as [[]|e]; cbn [snd st_history];
    rewrite length_app; cbn [length]; split; reflexivity.
Qed.

(** The theorem at a run that yields two texts, one on each channel. *)
Lemma chat_history_growth_witness :
  sampling_loop_model
    [(FromAssistant, Str (lit "ab")); (FromTool, Str (lit "cd"))] (Ok tt)
    (chat_loop_args (fun i : pystr => i) b64decode_py
       ([] ++ [user_turn (lit "hi")]) (lit "sk-demo") (lit "anthropic")
       (lit "claude") empty_str 10%N true) =
    mkGen (map FText [lit "ab"; lit "cd"]) (Ok tt)
  /\ (let h' := st_history
                  (snd (demo_chat
                          [(FromAssistant, Str (lit "ab"));
                           (FromTool, Str (lit "cd"))]
                          (Ok tt) true (lit "hi") [])) in
      length h' = length (@nil ChatTurn) + 2
      /\ h' = [] ++ [mkTurn (lit "user") (lit "hi");
                     mkTurn (lit "assistant")
                       (concat [lit "ab"; lit "cd"])]).
Proof.
  split; [reflexivity|].
  apply (chat_history_growth pystr (fun i : pystr => i) b64decode_py
           (sampling_loop_model
              [(FromAssistant, Str (lit "ab")); (FromTool, Str (lit "cd"))]
              (Ok tt))
           (lit "hi") (lit "sk-demo") (lit "anthropic") (lit "claude")
           empty_str 10%N true [] [lit "ab"; lit "cd"] (Ok tt)).
  reflexivity.
Defined.

(** A run that yields texts only: one snapshot for every text, each the
    response accumulated so far. *)
Lemma chat_one_snapshot_per_text
    (Input : Type) (py_str : Input -> pystr)
    (b64decode : pystr -> result (list byte))
    (sampling_loop : LoopArgs Input -> Gen fragment unit)
    (message api_key provider model prompt : pystr) (only_n : N)
    (hide_images : bool) (h : list ChatTurn)
    (ts : list pystr) (ending : result unit) :
  sampling_loop
    (chat_loop_args py_str b64decode (h ++ [user_turn message]) api_key
       provider model prompt only_n hide_images) =
    mkGen (map FText ts) ending ->
  let tr := st_trace
              (snd (chat py_str b64decode sampling_loop message api_key
                      provider model prompt only_n hide_images
                      (mkCState h []))) in
  snapshots tr = running empty_str ts
  /\ length (snapshots tr) = length ts.
Proof.
  intros Hrun tr. subst tr.
  rewrite chat_text_run with (ts := ts) (ending := ending) by exact Hrun.
  assert (Hsnap : forall tl : list (event Input),
             snapshots tl = [] ->
             snapshots ([] ++ [EvAppend (user_turn message);
                               EvLoop (chat_loop_args py_str b64decode
                                         (h ++ [user_turn message]) api_key
                                         provider model prompt only_n
                                         hide_images)]
                           ++ map EvYield (running empty_str ts) ++ tl) =
               running empty_str ts).
  { intros tl Htl. cbn [app snapshots].
    rewrite snapshots_app, snapshots_yields, Htl. apply app_nil_r. }
  destruct ending as [[]|e]; cbn [snd st_trace].
  - rewrite Hsnap by reflexivity. split; [reflexivity|apply running_length].
  - rewrite <- (app_nil_r (map EvYield (running empty_str ts))).
    rewrite Hsnap by reflexivity. split; [reflexivity|apply running_length].
Qed.

(** ** The claims about the persistence helpers *)

(** Both reads of [create_app] have the form
    [load_from_storage(name) or default]. *)
Remark create_app_reads
    (W : Type) (FS : FileSystem W) (home : PosixPath)
    (environ : pystr -> option pystr) :
  create_app_api_key home environ =
    load_from_storage_or home (lit "api_key")
      (getenv environ (lit "ANTHROPIC_API_KEY") empty_str)
  /\ create_app_custom_system_prompt home =
       load_from_storage_or home (lit "system_prompt") empty_str.
Proof. split; reflexivity. Qed.

(** C9.  Whatever the file operations do, [load_from_storage] and
    [save_to_storage] end without an exception.  [load_from_storage]
    returns [None] when the file is absent, when the test for it fails and
    when reading it fails; [save_to_storage] returns [None] also when a
    write fails.  In [create_app] a [None] becomes the value of the
    environment variable (or the empty string) for the API key and the
    empty string for the system prompt. *)
Theorem storage_errors_stay_inside
    (W : Type) (FS : FileSystem W) (home : PosixPath)
    (environ : pystr -> option pystr) (filename data : pystr)
    (s : io_state W) :
  fst (load_from_storage home filename s) =
    Ok match classify_read (truediv (CONFIG_DIR home) filename) (world s)
       with
       | ReadOk text =>
           if truthy (strip text) then Some (strip text) else None
       | Absent | ExistsFailed _ | ReadFailed _ => None
       end
  /\ fst (save_to_storage home filename data s) = Ok tt
  /\ fst (create_app_api_key home environ s) =
       Ok match classify_read (truediv (CONFIG_DIR home) (lit "api_key"))
                (world s)
          with
          | ReadOk text =>
              if truthy (strip text) then strip text
              else getenv environ (lit "ANTHROPIC_API_KEY") empty_str
          | Absent | ExistsFailed _ | ReadFailed _ =>
              getenv environ (lit "ANTHROPIC_API_KEY") empty_str
          end
  /\ fst (create_app_custom_system_prompt home s) =
       Ok match classify_read
                (truediv (CONFIG_DIR home) (lit "system_prompt")) (world s)
          with
          | ReadOk text =>
              if truthy (strip text) then strip text else empty_str
          | Absent | ExistsFailed _ | ReadFailed _ => empty_str
          end.
Proof.
  split; [apply load_from_storage_value|].
  split; [apply save_to_storage_value|].
  split; apply load_from_storage_or_value.
Qed.

(** A disk on which every call fails: the read gives [None] and prints
    the debug line, the write returns normally. *)
Example faulty_disk_read :
  load_from_storage demo_home (lit "api_key") (mkIO (mkDisk [] true) []) =
    (Ok None,
     mkIO (mkDisk [] true)
       [lit "Debug: Error loading api_key: [Errno 5] Input/output error"]).
Proof. reflexivity. Qed.

Example faulty_disk_write :
  save_to_storage demo_home (lit "api_key") (lit "sk-1")
    (mkIO (mkDisk [] true) []) =
    (Ok tt,
     mkIO (mkDisk [] true)
       [lit "Debug: Error saving api_key: [Errno 5] Input/output error"]).
Proof. reflexivity. Qed.

Example absent_file_read :
  load_from_storage demo_home (lit "api_key") (mkIO (mkDisk [] false) []) =
    (Ok None, mkIO (mkDisk [] false) []).
Proof. reflexivity. Qed.

Example saved_value_is_read_back :
  fst (load_from_storage demo_home (lit "api_key")
         (snd (save_to_storage demo_home (lit "api_key") (lit "sk-1")
                 (mkIO (mkDisk [] false) [])))) = Ok (Some (lit "sk-1")).
Proof. reflexivity. Qed.

(** With a blank file the API key box shows the environment variable. *)
Example blank_file_falls_back_to_environment :
  fst (create_app_api_key demo_home demo_environ (mkIO blank_disk [])) =
    Ok (lit "sk-env")
  /\ fst (create_app_custom_system_prompt demo_home (mkIO blank_disk [])) =
       Ok empty_str.
Proof. split; reflexivity. Qed.

(** C10.  When the stored file exists and its text is empty or made of
    white space only, [load_from_storage] returns [None], and
    [load_from_storage(name) or default] is the default, exactly as in a
    world where the file does not exist. *)
Theorem blank_file_reads_as_absent
    (W : Type) (FS : FileSystem W) (home : PosixPath)
    (filename default text : pystr) (s s0 : io_state W) (w1 w2 w0 : W) :
  path_exists (truediv (CONFIG_DIR home) filename) (world s) =
    (Ok true, w1) ->
  path_read_text (truediv (CONFIG_DIR home) filename) w1 = (Ok text, w2) ->
  forallb isspace text = true ->
  path_exists (truediv (CONFIG_DIR home) filename) (world s0) =
    (Ok false, w0) ->
  fst (load_from_storage home filename s) = Ok None
  /\ fst (load_from_storage_or home filename default s) = Ok default
  /\ fst (load_from_storage home filename s) =
       fst (load_from_storage home filename s0)
  /\ fst (load_from_storage_or home filename default s) =
       fst (load_from_storage_or home filename default s0).
Proof.
  intros Hex Hrd Hsp Hex0.
  rewrite !load_from_storage_value, !load_from_storage_or_value.
  unfold classify_read. rewrite Hex, Hrd, Hex0.
  rewrite (strip_all_space text Hsp). cbn. repeat split; reflexivity.
Qed.

(** The theorem at a disk whose [api_key] file is blank and at an empty
    disk. *)
Lemma blank_file_reads_as_absent_witness :
  path_exists (truediv (CONFIG_DIR demo_home) (lit "api_key")) blank_disk =
    (Ok true, blank_disk)
  /\ path_read_text (truediv (CONFIG_DIR demo_home) (lit "api_key"))
       blank_disk = (Ok [32; 10; 9; 160]%N, blank_disk)
  /\ forallb isspace [32; 10; 9; 160]%N = true
  /\ path_exists (truediv (CONFIG_DIR demo_home) (lit "api_key"))
       (mkDisk [] false) = (Ok false, mkDisk [] false)
  /\ (fst (load_from_storage demo_home (lit "api_key")
             (mkIO blank_disk [])) = Ok None
      /\ fst (load_from_storage_or demo_home (lit "api_key") (lit "sk-env")
                (mkIO blank_disk [])) = Ok (lit "sk-env")
      /\ fst (load_from_storage demo_home (lit "api_key")
                (mkIO blank_disk [])) =
           fst (load_from_storage demo_home (lit "api_key")
                  (mkIO (mkDisk [] false) []))
      /\ fst (load_from_storage_or demo_home (lit "api_key") (lit "sk-env")
                (mkIO blank_disk [])) =
           fst (load_from_storage_or demo_home (lit "api_key")
                  (lit "sk-env") (mkIO (mkDisk [] false) []))).
Proof.
  split; [reflexivity|]. split; [reflexivity|]. split; [reflexivity|].
  split; [reflexivity|].
  apply (blank_file_reads_as_absent Disk FileSystem_Disk demo_home
           (lit "api_key") (lit "sk-env") [32; 10; 9; 160]%N
           (mkIO blank_disk []) (mkIO (mkDisk [] false) [])
           blank_disk blank_disk (mkDisk [] false));
    reflexivity.
Defined.

(** * Further properties *)

(** ** White space *)

Lemma lstrip_starts_clean (s : pystr) : starts_clean (lstrip s) = true.
Proof.
  induction s as [|c s IH]; [reflexivity|].
  cbn. destruct (isspace c) eqn:Hc; [exact IH|].
  cbn. now rewrite Hc.
Qed.

Lemma lstrip_fixed (s : pystr) : starts_clean s = true -> lstrip s = s.
Proof.
  destruct s as [|c s]; [reflexivity|].
  cbn. intros Hc. apply negb_true_iff in Hc. now rewrite Hc.
Qed.

(** What [lstrip] removes is white space. *)
Lemma lstrip_split (s : pystr) :
  exists ws, s = ws ++ lstrip s /\ forallb isspace ws = true.
Proof.
  induction s as [|c s (ws & Hs & Hws)].
  - exists []. split; reflexivity.
  - cbn. destruct (isspace c) eqn:Hc.
    + exists (c :: ws). cbn. rewrite Hc, Hws. split; [congruence|reflexivity].
    + exists []. split; reflexivity.
Qed.

(** What [rstrip] removes is white space at the end. *)
Lemma rstrip_split (s : pystr) :
  exists ws, s = rstrip s ++ ws /\ forallb isspace ws = true.
Proof.
  destruct (lstrip_split (rev s)) as (ws & Hs & Hws).
  exists (rev ws). split.
  - unfold rstrip. rewrite <- rev_app_distr, <- Hs. symmetry. apply rev_involutive.
  - rewrite forallb_forall in *. intros x Hx. apply Hws. now apply in_rev.
Qed.

Lemma rstrip_ends_clean (s : pystr) : ends_clean (rstrip s) = true.
Proof.
  unfold ends_clean, rstrip. rewrite rev_involutive.
  apply lstrip_starts_clean.
Qed.

Lemma rstrip_starts_clean (s : pystr) :
  starts_clean s = true -> starts_clean (rstrip s) = true.
Proof.
  intros Hs. destruct (rstrip_split s) as (ws & Heq & _).
  destruct (rstrip s) as [|c r]; [reflexivity|].
  rewrite Heq in Hs. exact Hs.
Qed.

Lemma rstrip_fixed (s : pystr) : ends_clean s = true -> rstrip s = s.
Proof.
  intros Hs. unfold rstrip. rewrite (lstrip_fixed _ Hs).
  apply rev_involutive.
Qed.

Lemma strip_clean (s : pystr) :
  starts_clean (strip s) = true /\ ends_clean (strip s) = true.
Proof.
  unfold strip. split.
  - apply rstrip_starts_clean, lstrip_starts_clean.
  - apply rstrip_ends_clean.
Qed.

Lemma strip_fixed (s : pystr) :
  starts_clean s = true -> ends_clean s = true -> strip s = s.
Proof.
  intros H1 H2. unfold strip. rewrite (lstrip_fixed _ H1).
  now apply rstrip_fixed.
Qed.

Lemma strip_idempotent (s : pystr) : strip (strip s) = strip s.
Proof. destruct (strip_clean s). now apply strip_fixed. Qed.

Lemma list_eqb_N_eq (a b : pystr) : list_eqb N.eqb a b = true <-> a = b.
Proof.
  revert b. induction a as [|x a IH]; intros [|y b]; cbn;
    try (split; [discriminate|discriminate]); [split; reflexivity|].
  rewrite andb_true_iff, N.eqb_eq, IH. split.
  - intros [-> ->]. reflexivity.
  - intros [= -> ->]. split; reflexivity.
Qed.

(** ** More on the persistence helpers *)

Section StorageRuns.

Context {W : Type} {FS : FileSystem W}.
Variable home : PosixPath.

(** The whole run of [load_from_storage]: value, world and output. *)
Lemma load_from_storage_run (filename : pystr) (s : io_state W) :
  load_from_storage home filename s =
    match path_exists (truediv (CONFIG_DIR home) filename) (world s) with
    | (Ok true, w1) =>
        match path_read_text (truediv (CONFIG_DIR home) filename) w1 with
        | (Ok text, w2) =>
            (Ok (if truthy (strip text) then Some (strip text) else None),
             mkIO w2 (stdout s))
        | (Raise e, w2) =>
            (Ok None, mkIO w2 (stdout s ++ [debug_loading filename e]))
        end
    | (Ok false, w1) => (Ok None, mkIO w1 (stdout s))
    | (Raise e, w1) =>
        (Ok None, mkIO w1 (stdout s ++ [debug_loading filename e]))
    end.
Proof.
  unfold load_from_storage, try_except, on_world, debug_loading.
  cbn [bind ret Monad_ST]. unfold st_bind, st_ret, print.
  destruct (path_exists _ (world s)) as [[[|]|e] w1]; cbn; try reflexivity.
  destruct (path_read_text _ w1) as [[text|e] w2]; cbn; try reflexivity.
  destruct (truthy (strip text)); reflexivity.
Qed.

(** The whole run of [save_to_storage]. *)
Lemma save_to_storage_run (filename data : pystr) (s : io_state W) :
  save_to_storage home filename data s =
    (Ok tt,
     match classify_write home filename data (world s) with
     | Written w => mkIO w (stdout s)
     | MkdirFailed e w | WriteFailed e w | ChmodFailed e w =>
         mkIO w (stdout s ++ [debug_saving filename e])
     end).
Proof.
  unfold save_to_storage, classify_write, try_except, on_world, debug_saving.
  cbn [bind ret Monad_ST]. unfold st_bind, print.
  destruct (path_mkdir _ (world s)) as [[[]|e] w1]; cbn; try reflexivity.
  destruct (path_write_text _ data w1) as [[n|e] w2]; cbn; try reflexivity.
  destruct (path_chmod _ _ w2) as [[[]|e] w3]; reflexivity.
Qed.

End StorageRuns.

(** What is known of a value [load_from_storage] has returned. *)
Lemma loaded_value_is_stripped_facts
    (W : Type) (FS : FileSystem W) (home : PosixPath)
    (filename data : pystr) (s : io_state W) :
  fst (load_from_storage home filename s) = Ok (Some data) ->
  truthy data = true /\ strip data = data.
Proof.
  rewrite load_from_storage_value. intros Hload.
  destruct (classify_read _ (world s)) as [|e|e|text]; try discriminate.
  destruct (truthy (strip text)) eqn:Ht; [|discriminate].
  injection Hload as <-. split; [assumption|apply strip_idempotent].
Qed.

(** X1.  A value that [load_from_storage] returns is never empty and
    neither begins nor ends with white space; stripping it again changes
    nothing. *)
Theorem loaded_value_is_stripped
    (W : Type) (FS : FileSystem W) (home : PosixPath)
    (filename data : pystr) (s : io_state W) :
  fst (load_from_storage home filename s) = Ok (Some data) ->
  truthy data = true
  /\ starts_clean data = true
  /\ ends_clean data = true
  /\ strip data = data.
Proof.
  rewrite load_from_storage_value. intros Hload.
  destruct (classify_read _ (world s)) as [|e|e|text]; try discriminate.
  destruct (truthy (strip text)) eqn:Ht; [|discriminate].
  injection Hload as <-.
  destruct (strip_clean text) as [H1 H2].
  repeat split; try assumption. apply strip_idempotent.
Qed.

(** The theorem at a disk whose key file is [" sk-1\n"]. *)
Lemma loaded_value_is_stripped_witness :
  fst (load_from_storage demo_home (lit "api_key") (mkIO padded_disk [])) =
    Ok (Some (lit "sk-1"))
  /\ (truthy (lit "sk-1") = true
      /\ starts_clean (lit "sk-1") = true
      /\ ends_clean (lit "sk-1") = true
      /\ strip (lit "sk-1") = lit "sk-1").
Proof.
  split; [reflexivity|].
  apply (loaded_value_is_stripped Disk FileSystem_Disk demo_home
           (lit "api_key") (lit "sk-1") (mkIO padded_disk [])).
  reflexivity.
Defined.

(** X2.  [load_from_storage] prints exactly one line, naming the file and
    the error, when the test for the file or the read fails, and prints
    nothing when the file is absent or has been read. *)
Theorem load_prints_only_on_failure
    (W : Type) (FS : FileSystem W) (home : PosixPath)
    (filename : pystr) (s : io_state W) :
  stdout (snd (load_from_storage home filename s)) =
    stdout s ++
    match classify_read (truediv (CONFIG_DIR home) filename) (world s) with
    | ExistsFailed e | ReadFailed e =>
        [lit "Debug: Error loading " ++ filename ++ lit ": " ++ exn_msg e]
    | Absent | ReadOk _ => []
    end.
Proof.
  rewrite load_from_storage_run. unfold classify_read, debug_loading.
  destruct (path_exists _ (world s)) as [[[|]|e] w1]; cbn;
    rewrite ?app_nil_r; try reflexivity.
  destruct (path_read_text _ w1) as [[text|e] w2]; cbn;
    rewrite ?app_nil_r; reflexivity.
Qed.

(** X3.  [save_to_storage] makes the directory, writes the text and sets
    the mode 0o600, in this order, and stops at the first call that
    fails: the world it leaves is the one the last call made left, one
    line naming the file and the error is printed on a failure and
    nothing on success, and the caller gets [None] in every case. *)
Theorem save_stops_at_first_failure
    (W : Type) (FS : FileSystem W) (home : PosixPath)
    (filename data : pystr) (s : io_state W) :
  save_to_storage home filename data s =
    (Ok tt,
     match classify_write home filename data (world s) with
     | Written w => mkIO w (stdout s)
     | MkdirFailed e w | WriteFailed e w | ChmodFailed e w =>
         mkIO w (stdout s
                   ++ [lit "Debug: Error saving " ++ filename ++ lit ": "
                         ++ exn_msg e])
     end).
Proof. apply save_to_storage_run. Qed.

(** X4.  Saving and then loading gives back the text stripped of the
    white space around it, and [None] when the text is blank, on a file
    system where the three calls of the save succeed and the file then
    exists and reads as it was written. *)
Theorem save_then_load
    (W : Type) (FS : FileSystem W) (home : PosixPath)
    (filename data : pystr) (s : io_state W) (w3 w4 w5 : W) :
  classify_write home filename data (world s) = Written w3 ->
  path_exists (truediv (CONFIG_DIR home) filename) w3 = (Ok true, w4) ->
  path_read_text (truediv (CONFIG_DIR home) filename) w4 = (Ok data, w5) ->
  load_from_storage home filename
    (snd (save_to_storage home filename data s)) =
    (Ok (if truthy (strip data) then Some (strip data) else None),
     mkIO w5 (stdout s)).
Proof.
  intros Hw Hex Hrd.
  rewrite save_to_storage_run, Hw. cbn [snd].
  rewrite load_from_storage_run. cbn [world stdout].
  now rewrite Hex, Hrd.
Qed.

(** The theorem at an empty disk and the text [" sk-1\n"]. *)
Lemma save_then_load_witness :
  let d := mkDisk
             [(truediv (CONFIG_DIR demo_home) (lit "api_key"),
               ([32; 115; 107; 45; 49; 10]%N, 384%N))] false in
  classify_write demo_home (lit "api_key") [32; 115; 107; 45; 49; 10]%N
    (mkDisk [] false) = Written d
  /\ path_exists (truediv (CONFIG_DIR demo_home) (lit "api_key")) d =
       (Ok true, d)
  /\ path_read_text (truediv (CONFIG_DIR demo_home) (lit "api_key")) d =
       (Ok [32; 115; 107; 45; 49; 10]%N, d)
  /\ load_from_storage demo_home (lit "api_key")
       (snd (save_to_storage demo_home (lit "api_key")
               [32; 115; 107; 45; 49; 10]%N (mkIO (mkDisk [] false) []))) =
       (Ok (Some (lit "sk-1")), mkIO d []).
Proof.
  cbv zeta. split; [reflexivity|]. split; [reflexivity|].
  split; [reflexivity|].
  apply (save_then_load Disk FileSystem_Disk demo_home (lit "api_key")
           [32; 115; 107; 45; 49; 10]%N (mkIO (mkDisk [] false) [])
           (mkDisk [(truediv (CONFIG_DIR demo_home) (lit "api_key"),
                     ([32; 115; 107; 45; 49; 10]%N, 384%N))] false)
           (mkDisk [(truediv (CONFIG_DIR demo_home) (lit "api_key"),
                     ([32; 115; 107; 45; 49; 10]%N, 384%N))] false)
           (mkDisk [(truediv (CONFIG_DIR demo_home) (lit "api_key"),
                     ([32; 115; 107; 45; 49; 10]%N, 384%N))] false));
    reflexivity.
Defined.

(** X5.  A value read from storage survives being saved and read again:
    when [load_from_storage] has returned a value, saving that value
    (anywhere the save succeeds and the file reads as written) and loading
    it returns the same value. *)
Theorem loaded_value_survives_a_save
    (W : Type) (FS : FileSystem W) (home : PosixPath)
    (filename v : pystr) (s s' : io_state W) (w3 w4 w5 : W) :
  fst (load_from_storage home filename s) = Ok (Some v) ->
  classify_write home filename v (world s') = Written w3 ->
  path_exists (truediv (CONFIG_DIR home) filename) w3 = (Ok true, w4) ->
  path_read_text (truediv (CONFIG_DIR home) filename) w4 = (Ok v, w5) ->
  fst (load_from_storage home filename
         (snd (save_to_storage home filename v s'))) = Ok (Some v).
Proof.
  intros Hload Hw Hex Hrd.
  destruct (loaded_value_is_stripped_facts W FS home filename v s Hload)
    as (Ht & Hs).
  rewrite save_to_storage_run, Hw. cbn [snd].
  rewrite load_from_storage_run. cbn [world stdout].
  rewrite Hex, Hrd. cbn [fst]. now rewrite Hs, Ht.
Qed.

(** The theorem at the key read from the padded file, saved to an empty
    disk. *)
Lemma loaded_value_survives_a_save_witness :
  let d := mkDisk
             [(truediv (CONFIG_DIR demo_home) (lit "api_key"),
               (lit "sk-1", 384%N))] false in
  fst (load_from_storage demo_home (lit "api_key") (mkIO padded_disk [])) =
    Ok (Some (lit "sk-1"))
  /\ classify_write demo_home (lit "api_key") (lit "sk-1")
       (mkDisk [] false) = Written d
  /\ path_exists (truediv (CONFIG_DIR demo_home) (lit "api_key")) d =
       (Ok true, d)
  /\ path_read_text (truediv (CONFIG_DIR demo_home) (lit "api_key")) d =
       (Ok (lit "sk-1"), d)
  /\ fst (load_from_storage demo_home (lit "api_key")
            (snd (save_to_storage demo_home (lit "api_key") (lit "sk-1")
                    (mkIO (mkDisk [] false) [])))) = Ok (Some (lit "sk-1")).
Proof.
  cbv zeta. split; [reflexivity|]. split; [reflexivity|].
  split; [reflexivity|]. split; [reflexivity|].
  apply (loaded_value_survives_a_save Disk FileSystem_Disk demo_home
           (lit "api_key") (lit "sk-1") (mkIO padded_disk [])
           (mkIO (mkDisk [] false) [])
           (mkDisk [(truediv (CONFIG_DIR demo_home) (lit "api_key"),
                     (lit "sk-1", 384%N))] false)
           (mkDisk [(truediv (CONFIG_DIR demo_home) (lit "api_key"),
                     (lit "sk-1", 384%N))] false)
           (mkDisk [(truediv (CONFIG_DIR demo_home) (lit "api_key"),
                     (lit "sk-1", 384%N))] false));
    reflexivity.
Defined.

(** X6.  What the change handler of the API key box has saved is what
    [create_app] shows at the next start, stripped, whatever the
    environment holds; a blank text saved falls back to the environment
    variable (on a file system where the save succeeds and the file reads
    as written). *)
Theorem saved_key_is_shown_at_next_start
    (W : Type) (FS : FileSystem W) (home : PosixPath)
    (environ : pystr -> option pystr) (x : pystr) (s : io_state W)
    (w3 w4 w5 : W) :
  classify_write home (lit "api_key") x (world s) = Written w3 ->
  path_exists (truediv (CONFIG_DIR home) (lit "api_key")) w3 =
    (Ok true, w4) ->
  path_read_text (truediv (CONFIG_DIR home) (lit "api_key")) w4 =
    (Ok x, w5) ->
  fst (create_app_api_key home environ
         (snd (on_api_key_change home x s))) =
    Ok (if truthy (strip x) then strip x
        else getenv environ (lit "ANTHROPIC_API_KEY") empty_str).
Proof.
  intros Hw Hex Hrd. unfold on_api_key_change, create_app_api_key.
  rewrite load_from_storage_or_value, save_to_storage_run, Hw.
  cbn [snd world]. unfold classify_read. now rewrite Hex, Hrd.
Qed.

(** The theorem at an empty disk, the key [" sk-1\n"] and an environment
    that sets another key. *)
Lemma saved_key_is_shown_at_next_start_witness :
  let d := mkDisk
             [(truediv (CONFIG_DIR demo_home) (lit "api_key"),
               ([32; 115; 107; 45; 49; 10]%N, 384%N))] false in
  classify_write demo_home (lit "api_key") [32; 115; 107; 45; 49; 10]%N
    (mkDisk [] false) = Written d
  /\ path_exists (truediv (CONFIG_DIR demo_home) (lit "api_key")) d =
       (Ok true, d)
  /\ path_read_text (truediv (CONFIG_DIR demo_home) (lit "api_key")) d =
       (Ok [32; 115; 107; 45; 49; 10]%N, d)
  /\ fst (create_app_api_key demo_home demo_environ
            (snd (on_api_key_change demo_home [32; 115; 107; 45; 49; 10]%N
                    (mkIO (mkDisk [] false) [])))) = Ok (lit "sk-1").
Proof.
  cbv zeta. split; [reflexivity|]. split; [reflexivity|].
  split; [reflexivity|].
  apply (saved_key_is_shown_at_next_start Disk FileSystem_Disk demo_home
           demo_environ [32; 115; 107; 45; 49; 10]%N
           (mkIO (mkDisk [] false) [])
           (mkDisk [(truediv (CONFIG_DIR demo_home) (lit "api_key"),
                     ([32; 115; 107; 45; 49; 10]%N, 384%N))] false)
           (mkDisk [(truediv (CONFIG_DIR demo_home) (lit "api_key"),
                     ([32; 115; 107; 45; 49; 10]%N, 384%N))] false)
           (mkDisk [(truediv (CONFIG_DIR demo_home) (lit "api_key"),
                     ([32; 115; 107; 45; 49; 10]%N, 384%N))] false));
    reflexivity.
Defined.

(** ** [validate_auth] *)

Lemma validate_auth_is_none
    (ANTHROPIC provider : pystr) (api_key : option pystr) :
  provider <> ANTHROPIC \/ opt_truthy api_key = true ->
  validate_auth ANTHROPIC provider api_key = None.
Proof.
  unfold validate_auth. intros [Hne|Hk].
  - destruct (list_eqb N.eqb provider ANTHROPIC) eqn:Hp; [|reflexivity].
    apply list_eqb_N_eq in Hp. contradiction.
  - rewrite Hk. now destruct (list_eqb N.eqb provider ANTHROPIC).
Qed.

(** X7.  [validate_auth] returns its message exactly when the provider is
    Anthropic and the key is [None] or the empty string; for every other
    provider, and for every non-empty key, it returns [None]. *)
Theorem validate_auth_complains_iff
    (ANTHROPIC provider : pystr) (api_key : option pystr) :
  (validate_auth ANTHROPIC provider api_key =
     Some (lit "Enter your Anthropic API key to continue.")
   <-> provider = ANTHROPIC /\ opt_truthy api_key = false)
  /\ (validate_auth ANTHROPIC provider api_key = None
      <-> provider <> ANTHROPIC \/ opt_truthy api_key = true).
Proof.
  unfold validate_auth.
  destruct (list_eqb N.eqb provider ANTHROPIC) eqn:Hp.
  - apply list_eqb_N_eq in Hp.
    destruct (opt_truthy api_key); cbn; split; split;
      try discriminate; try tauto.
    + intros [_ Hk]. discriminate.
    + intros [Hne|Hk]; [contradiction|discriminate].
  - assert (Hne : provider <> ANTHROPIC).
    { intros Heq. apply list_eqb_N_eq in Heq. congruence. }
    split; split; try discriminate; try tauto.
Qed.

(** X8.  A key that [load_from_storage] has returned is accepted by
    [validate_auth] for the Anthropic provider. *)
Theorem loaded_key_passes_validate_auth
    (W : Type) (FS : FileSystem W) (home : PosixPath)
    (ANTHROPIC filename key : pystr) (s : io_state W) :
  fst (load_from_storage home filename s) = Ok (Some key) ->
  validate_auth ANTHROPIC ANTHROPIC (Some key) = None.
Proof.
  intros Hload.
  destruct (loaded_value_is_stripped_facts W FS home filename key s Hload)
    as (Ht & _).
  apply validate_auth_is_none. right. exact Ht.
Qed.

(** The theorem at the padded key file. *)
Lemma loaded_key_passes_validate_auth_witness :
  fst (load_from_storage demo_home (lit "api_key") (mkIO padded_disk [])) =
    Ok (Some (lit "sk-1"))
  /\ validate_auth (lit "anthropic") (lit "anthropic") (Some (lit "sk-1")) =
       None.
Proof.
  split; [reflexivity|].
  apply (loaded_key_passes_validate_auth Disk FileSystem_Disk demo_home
           (lit "anthropic") (lit "api_key") (lit "sk-1")
           (mkIO padded_disk [])).
  reflexivity.
Defined.

(** ** More on [chat] *)

Section ChatAnyLoop.

Variable Input : Type.
Variable py_str : Input -> pystr.
Variable b64decode : pystr -> result (list byte).
Variable sampling_loop : LoopArgs Input -> Gen fragment unit.

(** The accumulation loop on any fragments: the texts before the first
    image are appended and answered with a snapshot each; an image ends
    the loop with the [TypeError]. *)
Lemma for_each_any (ys : list fragment) :
  forall (acc : pystr) (s : cstate Input),
    for_each ys acc (@accumulate Input) s =
      (if existsb is_image ys then Raise TypeError_concat
       else Ok (acc ++ concat (leading_texts ys)),
       mkCState (st_history s)
         (st_trace s ++ map EvYield (running acc (leading_texts ys)))).
Proof.
  induction ys as [|[t|value] ys IH]; intros acc s.
  - cbn. now rewrite !app_nil_r, cstate_eta.
  - cbn [for_each bind Monad_ST]. unfold st_bind.
    rewrite accumulate_text, IH.
    cbn [st_history st_trace existsb is_image orb leading_texts concat
         running map].
    rewrite <- !app_assoc. reflexivity.
  - cbn [for_each bind Monad_ST]. unfold st_bind.
    rewrite accumulate_image. cbn. now rewrite app_nil_r, cstate_eta.
Qed.

Variables message api_key provider model prompt : pystr.
Variable only_n : N.
Variable hide_images : bool.
Variable h : list ChatTurn.
Variable tr : list (event Input).

(** Every run of [chat]. *)
Lemma chat_any_run :
  let u := user_turn message in
  let args := chat_loop_args py_str b64decode (h ++ [u]) api_key provider
                model prompt only_n hide_images in
  let ys := yielded (sampling_loop args) in
  let a := assistant_turn (concat (leading_texts ys)) in
  let tr1 := tr ++ [EvAppend u; EvLoop args]
                ++ map EvYield (running empty_str (leading_texts ys)) in
  chat py_str b64decode sampling_loop message api_key provider model prompt
    only_n hide_images (mkCState h tr) =
    if existsb is_image ys
    then (Raise TypeError_concat, mkCState (h ++ [u]) tr1)
    else
      match outcome (sampling_loop args) with
      | Ok _ =>
          (Ok (h ++ [u; a]), mkCState (h ++ [u; a]) (tr1 ++ [EvAppend a]))
      | Raise e => (Raise e, mkCState (h ++ [u]) tr1)
      end.
Proof.
  intros u args ys a tr1. rewrite chat_run. fold u. fold args.
  rewrite for_each_any. fold ys. cbn [st_history st_trace].
  subst tr1. rewrite <- !app_assoc. cbn [app].
  destruct (existsb is_image ys); [reflexivity|].
  destruct (outcome (sampling_loop args)) as [[]|e];
    cbn; rewrite <- ?app_assoc; reflexivity.
Qed.

End ChatAnyLoop.

Lemma leading_texts_length (ys : list fragment) :
  if existsb is_image ys
  then length (leading_texts ys) < length ys
  else length (leading_texts ys) = length ys.
Proof.
  induction ys as [|[t|value] ys IH]; cbn; [reflexivity| |].
  - destruct (existsb is_image ys); lia.
  - lia.
Qed.

Lemma last_default {A} (l : list A) (x d d' : A) :
  last (x :: l) d = last (x :: l) d'.
Proof.
  revert x. induction l as [|y l IH]; intros x; [reflexivity|].
  cbn [last]. apply IH.
Qed.

Lemma last_running (ts : list pystr) :
  forall acc, last (running acc ts) acc = acc ++ concat ts.
Proof.
  induction ts as [|t ts IH]; intros acc; cbn [running concat].
  - cbn. now rewrite app_nil_r.
  - rewrite app_assoc, <- IH.
    destruct ts as [|t' ts]; [reflexivity|]. cbn [running].
    cbn [last]. apply last_default.
Qed.

Lemma prefixb_app (a t : pystr) : prefixb a (a ++ t) = true.
Proof.
  induction a as [|x a IH]; [reflexivity|].
  cbn. now rewrite N.eqb_refl, IH.
Qed.

Lemma increasing_running (ts : list pystr) :
  forall acc, increasing (running acc ts) = true.
Proof.
  induction ts as [|t ts IH]; intros acc; [reflexivity|].
  cbn [running]. specialize (IH (acc ++ t)).
  destruct ts as [|t' ts]; [reflexivity|].
  cbn [running] in *. cbn [increasing].
  rewrite prefixb_app. exact IH.
Qed.

Lemma loop_calls_app {Input} (tr1 tr2 : list (event Input)) :
  loop_calls (tr1 ++ tr2) = loop_calls tr1 ++ loop_calls tr2.
Proof.
  induction tr1 as [|ev tr1 IH]; [reflexivity|].
  destruct ev; cbn; now rewrite IH.
Qed.

Lemma loop_calls_yields {Input} (l : list pystr) :
  loop_calls (map (@EvYield Input) l) = [].
Proof. induction l as [|x l IH]; [reflexivity|exact IH]. Qed.

Lemma snapshots_of_run {Input} (u : ChatTurn) (args : LoopArgs Input)
    (l : list pystr) (tl : list (event Input)) :
  snapshots tl = [] ->
  snapshots (([] ++ [EvAppend u; EvLoop args] ++ map EvYield l) ++ tl) = l.
Proof.
  intros Htl. rewrite snapshots_app, Htl, app_nil_r. cbn [app snapshots].
  apply snapshots_yields.
Qed.

(** The snapshots of any run are running concatenations. *)
Lemma chat_snapshots_growth
    (Input : Type) (py_str : Input -> pystr)
    (b64decode : pystr -> result (list byte))
    (sampling_loop : LoopArgs Input -> Gen fragment unit)
    (message api_key provider model prompt : pystr) (only_n : N)
    (hide_images : bool) (h : list ChatTurn) :
  exists ts : list pystr,
    snapshots
      (st_trace
         (snd (chat py_str b64decode sampling_loop message api_key provider
                 model prompt only_n hide_images (mkCState h [])))) =
      running empty_str ts.
Proof.
  rewrite chat_any_run.
  set (g := sampling_loop _). exists (leading_texts (yielded g)).
  destruct (existsb is_image (yielded g)); cbn [snd st_trace].
  - rewrite <- (app_nil_r (_ ++ _ ++ map EvYield _)).
    now apply snapshots_of_run.
  - destruct (outcome g) as [[]|e]; cbn [snd st_trace].
    + now apply snapshots_of_run.
    + rewrite <- (app_nil_r (_ ++ _ ++ map EvYield _)).
      now apply snapshots_of_run.
Qed.

(** X12.  Whatever the agent loop does, [chat] leaves the earlier turns
    as they are and appends the user turn; it appends an assistant turn
    exactly when it ends without an exception, which is exactly when the
    loop ended normally and yielded no image, and that turn holds the
    concatenation of the texts the loop yielded. *)
Theorem chat_never_rewrites_history
    (Input : Type) (py_str : Input -> pystr)
    (b64decode : pystr -> result (list byte))
    (sampling_loop : LoopArgs Input -> Gen fragment unit)
    (message api_key provider model prompt : pystr) (only_n : N)
    (hide_images : bool) (h : list ChatTurn) :
  let g := sampling_loop
             (chat_loop_args py_str b64decode (h ++ [user_turn message])
                api_key provider model prompt only_n hide_images) in
  let r := chat py_str b64decode sampling_loop message api_key provider
             model prompt only_n hide_images (mkCState h []) in
  let committed :=
    negb (existsb is_image (yielded g)) && negb (is_raise (outcome g)) in
  st_history (snd r) =
    h ++ mkTurn (lit "user") message
      :: (if committed
          then [mkTurn (lit "assistant")
                  (concat (leading_texts (yielded g)))]
          else [])
  /\ is_raise (fst r) = negb committed.
Proof.
  intros g r committed. subst r committed. rewrite chat_any_run. fold g.
  destruct (existsb is_image (yielded g)); [split; reflexivity|].
  destruct (outcome g) as [[]|e]; split; reflexivity.
Qed.

(** X14.  Whatever the agent loop does, the snapshots [chat] emits are
    the running concatenations of the texts the loop yielded before its
    first image: one snapshot for every fragment when no image is
    yielded, and fewer snapshots than fragments otherwise. *)
Theorem chat_snapshots_for_any_loop
    (Input : Type) (py_str : Input -> pystr)
    (b64decode : pystr -> result (list byte))
    (sampling_loop : LoopArgs Input -> Gen fragment unit)
    (message api_key provider model prompt : pystr) (only_n : N)
    (hide_images : bool) (h : list ChatTurn) :
  let ys := yielded
              (sampling_loop
                 (chat_loop_args py_str b64decode (h ++ [user_turn message])
                    api_key provider model prompt only_n hide_images)) in
  let snaps :=
    snapshots
      (st_trace
         (snd (chat py_str b64decode sampling_loop message api_key provider
                 model prompt only_n hide_images (mkCState h [])))) in
  snaps = running empty_str (leading_texts ys)
  /\ (if existsb is_image ys
      then length snaps < length ys
      else length snaps = length ys).
Proof.
  intros ys snaps.
  assert (Hs : snaps = running empty_str (leading_texts ys)).
  { subst snaps. rewrite chat_any_run. fold ys.
    destruct (existsb is_image ys); cbn [snd st_trace].
    - rewrite <- (app_nil_r (_ ++ _ ++ map EvYield _)).
      now apply snapshots_of_run.
    - destruct (outcome _) as [[]|e]; cbn [snd st_trace].
      + now apply snapshots_of_run.
      + rewrite <- (app_nil_r (_ ++ _ ++ map EvYield _)).
        now apply snapshots_of_run. }
  split; [exact Hs|].
  rewrite Hs, running_length. apply leading_texts_length.
Qed.

(** X15.  When [chat] ends normally, the content of the assistant turn
    it has appended is the last snapshot it emitted (the empty string
    when it emitted none). *)
Theorem committed_turn_is_last_snapshot
    (Input : Type) (py_str : Input -> pystr)
    (b64decode : pystr -> result (list byte))
    (sampling_loop : LoopArgs Input -> Gen fragment unit)
    (message api_key provider model prompt : pystr) (only_n : N)
    (hide_images : bool) (h hist : list ChatTurn) :
  let r := chat py_str b64decode sampling_loop message api_key provider
             model prompt only_n hide_images (mkCState h []) in
  fst r = Ok hist ->
  st_history (snd r) = hist
  /\ last hist (user_turn message) =
       mkTurn (lit "assistant")
         (last (snapshots (st_trace (snd r))) empty_str).
Proof.
  intros r. subst r. rewrite chat_any_run.
  set (g := sampling_loop _).
  destruct (existsb is_image (yielded g)); [discriminate|].
  destruct (outcome g) as [[]|e]; [|discriminate].
  cbn [fst snd st_history st_trace]. intros [= <-].
  split; [reflexivity|].
  rewrite snapshots_of_run by reflexivity.
  change (h ++ [user_turn message;
                assistant_turn (concat (leading_texts (yielded g)))])
    with (h ++ [user_turn message]
            ++ [assistant_turn (concat (leading_texts (yielded g)))]).
  rewrite app_assoc, last_last.
  unfold empty_str. rewrite last_running. reflexivity.
Qed.

(** The theorem at a run of the echoing loop. *)
Lemma committed_turn_is_last_snapshot_witness :
  let r := chat (fun i : pystr => i) b64decode_py echo_loop (lit "hi")
             (lit "sk-demo") (lit "anthropic") (lit "claude") empty_str
             10%N false (mkCState [] []) in
  fst r = Ok [user_turn (lit "hi"); assistant_turn (lit "You said: hi")]
  /\ (st_history (snd r) =
        [user_turn (lit "hi"); assistant_turn (lit "You said: hi")]
      /\ last [user_turn (lit "hi"); assistant_turn (lit "You said: hi")]
           (user_turn (lit "hi")) =
           mkTurn (lit "assistant")
             (last (snapshots (st_trace (snd r))) empty_str)).
Proof.
  cbv zeta. split; [reflexivity|].
  apply (committed_turn_is_last_snapshot pystr (fun i : pystr => i)
           b64decode_py echo_loop (lit "hi") (lit "sk-demo")
           (lit "anthropic") (lit "claude") empty_str 10%N false []
           [user_turn (lit "hi"); assistant_turn (lit "You said: hi")]).
  reflexivity.
Defined.

(** X16.  Whatever the agent loop does, every snapshot [chat] emits
    extends the one before it: the response shown never shrinks and is
    never replaced. *)
Theorem snapshots_only_grow
    (Input : Type) (py_str : Input -> pystr)
    (b64decode : pystr -> result (list byte))
    (sampling_loop : LoopArgs Input -> Gen fragment unit)
    (message api_key provider model prompt : pystr) (only_n : N)
    (hide_images : bool) (h : list ChatTurn) :
  increasing
    (snapshots
       (st_trace
          (snd (chat py_str b64decode sampling_loop message api_key provider
                  model prompt only_n hide_images (mkCState h []))))) = true.
Proof.
  destruct (chat_snapshots_growth Input py_str b64decode sampling_loop
              message api_key provider model prompt only_n hide_images h)
    as (ts & ->).
  apply increasing_running.
Qed.

(** X17.  Two turns compose: when both runs of the loop yield texts and
    complete, the second run of [chat] starts from the history the first
    one left, the loop is called the second time with the first exchange
    and the new message, the history ends as user, assistant, user,
    assistant, and the second response is accumulated from the empty
    string, not from the first response. *)
Theorem two_turns_compose
    (Input : Type) (py_str : Input -> pystr)
    (b64decode : pystr -> result (list byte))
    (sampling_loop : LoopArgs Input -> Gen fragment unit)
    (m1 m2 api_key provider model prompt : pystr) (only_n : N)
    (hide_images : bool) (h : list ChatTurn) (ts1 ts2 : list pystr) :
  sampling_loop
    (chat_loop_args py_str b64decode (h ++ [user_turn m1]) api_key provider
       model prompt only_n hide_images) = mkGen (map FText ts1) (Ok tt) ->
  sampling_loop
    (chat_loop_args py_str b64decode
       ((h ++ [user_turn m1; assistant_turn (concat ts1)])
          ++ [user_turn m2])
       api_key provider model prompt only_n hide_images) =
    mkGen (map FText ts2) (Ok tt) ->
  let r1 := chat py_str b64decode sampling_loop m1 api_key provider model
              prompt only_n hide_images (mkCState h []) in
  let r2 := chat py_str b64decode sampling_loop m2 api_key provider model
              prompt only_n hide_images (snd r1) in
  st_history (snd r2) =
    h ++ [mkTurn (lit "user") m1; mkTurn (lit "assistant") (concat ts1);
          mkTurn (lit "user") m2; mkTurn (lit "assistant") (concat ts2)]
  /\ fst r2 = Ok (st_history (snd r2))
  /\ loop_calls (st_trace (snd r2)) =
       [map to_message (h ++ [mkTurn (lit "user") m1]);
        map to_message
          (h ++ [mkTurn (lit "user") m1;
                 mkTurn (lit "assistant") (concat ts1);
                 mkTurn (lit "user") m2])]
  /\ snapshots (st_trace (snd r2)) =
       running empty_str ts1 ++ running empty_str ts2.
Proof.
  intros H1 H2 r1 r2. subst r2 r1.
  rewrite (chat_text_run Input py_str b64decode sampling_loop m1 api_key
             provider model prompt only_n hide_images h [] ts1 (Ok tt) H1).
  cbn [snd].
  rewrite (chat_text_run Input py_str b64decode sampling_loop m2 api_key
             provider model prompt only_n hide_images _ _ ts2 (Ok tt) H2).
  cbn [fst snd st_history st_trace].
  rewrite <- !app_assoc. cbn [app].
  repeat split.
  - cbn [loop_calls]. rewrite !loop_calls_app, !loop_calls_yields.
    cbn [app loop_calls]. rewrite loop_calls_app, loop_calls_yields.
    cbn [app loop_calls messages chat_loop_args]. reflexivity.
  - cbn [snapshots]. rewrite !snapshots_app, !snapshots_yields.
    cbn [app snapshots]. rewrite snapshots_app, snapshots_yields.
    cbn [snapshots]. now rewrite app_nil_r.
Qed.

(** The theorem at two messages to the echoing loop. *)
Lemma two_turns_compose_witness :
  echo_loop
    (chat_loop_args (fun i : pystr => i) b64decode_py
       ([] ++ [user_turn (lit "a")]) (lit "sk-demo") (lit "anthropic")
       (lit "claude") empty_str 10%N false) =
    mkGen (map FText [lit "You said: "; lit "a"]) (Ok tt)
  /\ echo_loop
       (chat_loop_args (fun i : pystr => i) b64decode_py
          (([] ++ [user_turn (lit "a");
                   assistant_turn (concat [lit "You said: "; lit "a"])])
             ++ [user_turn (lit "b")])
          (lit "sk-demo") (lit "anthropic") (lit "claude") empty_str 10%N
          false) =
       mkGen (map FText [lit "You said: "; lit "b"]) (Ok tt)
  /\ st_history
       (snd (chat (fun i : pystr => i) b64decode_py echo_loop (lit "b")
               (lit "sk-demo") (lit "anthropic") (lit "claude") empty_str
               10%N false
               (snd (chat (fun i : pystr => i) b64decode_py echo_loop
                       (lit "a") (lit "sk-demo") (lit "anthropic")
                       (lit "claude") empty_str 10%N false
                       (mkCState [] []))))) =
       [] ++ [mkTurn (lit "user") (lit "a");
              mkTurn (lit "assistant") (concat [lit "You said: "; lit "a"]);
              mkTurn (lit "user") (lit "b");
              mkTurn (lit "assistant") (concat [lit "You said: "; lit "b"])].
Proof.
  split; [reflexivity|]. split; [reflexivity|].
  apply (two_turns_compose pystr (fun i : pystr => i) b64decode_py echo_loop
           (lit "a") (lit "b") (lit "sk-demo") (lit "anthropic")
           (lit "claude") empty_str 10%N false []
           [lit "You said: "; lit "a"] [lit "You said: "; lit "b"]);
    reflexivity.
Defined.

(** X18.  A failed turn stays in the conversation: when the loop raises
    in one run and completes in the next, the history holds the two user
    turns one after the other, followed by the one assistant turn, and the
    second call of the loop is given the unanswered message again. *)
Theorem failed_turn_stays_in_history
    (Input : Type) (py_str : Input -> pystr)
    (b64decode : pystr -> result (list byte))
    (sampling_loop : LoopArgs Input -> Gen fragment unit)
    (m1 m2 api_key provider model prompt : pystr) (only_n : N)
    (hide_images : bool) (h : list ChatTurn) (ts1 ts2 : list pystr)
    (e : exn) :
  sampling_loop
    (chat_loop_args py_str b64decode (h ++ [user_turn m1]) api_key provider
       model prompt only_n hide_images) = mkGen (map FText ts1) (Raise e) ->
  sampling_loop
    (chat_loop_args py_str b64decode ((h ++ [user_turn m1]) ++ [user_turn m2])
       api_key provider model prompt only_n hide_images) =
    mkGen (map FText ts2) (Ok tt) ->
  let r1 := chat py_str b64decode sampling_loop m1 api_key provider model
              prompt only_n hide_images (mkCState h []) in
  let r2 := chat py_str b64decode sampling_loop m2 api_key provider model
              prompt only_n hide_images (snd r1) in
  fst r1 = Raise e
  /\ st_history (snd r2) =
       h ++ [mkTurn (lit "user") m1; mkTurn (lit "user") m2;
             mkTurn (lit "assistant") (concat ts2)]
  /\ loop_calls (st_trace (snd r2)) =
       [map to_message (h ++ [mkTurn (lit "user") m1]);
        map to_message
          (h ++ [mkTurn (lit "user") m1; mkTurn (lit "user") m2])].
Proof.
  intros H1 H2 r1 r2. subst r2 r1.
  rewrite (chat_text_run Input py_str b64decode sampling_loop m1 api_key
             provider model prompt only_n hide_images h [] ts1 (Raise e) H1).
  cbn [fst snd].
  rewrite (chat_text_run Input py_str b64decode sampling_loop m2 api_key
             provider model prompt only_n hide_images _ _ ts2 (Ok tt) H2).
  cbn [fst snd st_history st_trace].
  rewrite <- !app_assoc. cbn [app].
  repeat split.
  cbn [loop_calls]. rewrite !loop_calls_app, !loop_calls_yields.
  cbn [app loop_calls]. rewrite loop_calls_app, loop_calls_yields.
  cbn [app loop_calls messages chat_loop_args]. reflexivity.
Qed.

(** The theorem at the loop that fails on a first message. *)
Lemma failed_turn_stays_in_history_witness :
  flaky_loop
    (chat_loop_args (fun i : pystr => i) b64decode_py
       ([] ++ [user_turn (lit "a")]) (lit "sk-demo") (lit "anthropic")
       (lit "claude") empty_str 10%N false) =
    mkGen (map FText [lit "Working"]) (Raise upstream_failure)
  /\ flaky_loop
       (chat_loop_args (fun i : pystr => i) b64decode_py
          (([] ++ [user_turn (lit "a")]) ++ [user_turn (lit "b")])
          (lit "sk-demo") (lit "anthropic") (lit "claude") empty_str 10%N
          false) =
       mkGen (map FText [lit "You said: "; lit "b"]) (Ok tt)
  /\ st_history
       (snd (chat (fun i : pystr => i) b64decode_py flaky_loop (lit "b")
               (lit "sk-demo") (lit "anthropic") (lit "claude") empty_str
               10%N false
               (snd (chat (fun i : pystr => i) b64decode_py flaky_loop
                       (lit "a") (lit "sk-demo") (lit "anthropic")
                       (lit "claude") empty_str 10%N false
                       (mkCState [] []))))) =
       [] ++ [mkTurn (lit "user") (lit "a"); mkTurn (lit "user") (lit "b");
              mkTurn (lit "assistant") (concat [lit "You said: "; lit "b"])].
Proof.
  split; [reflexivity|]. split; [reflexivity|].
  apply (failed_turn_stays_in_history pystr (fun i : pystr => i)
           b64decode_py flaky_loop (lit "a") (lit "b") (lit "sk-demo")
           (lit "anthropic") (lit "claude") empty_str 10%N false []
           [lit "Working"] [lit "You said: "; lit "b"] upstream_failure);
    reflexivity.
Defined.

(** ** The normalizer as the module stands *)

Lemma existsb_texts (ts : list pystr) :
  existsb is_image (map FText ts) = false.
Proof. induction ts as [|t ts IH]; [reflexivity|exact IH]. Qed.

Lemma texts_of_no_image (ys : list fragment) :
  existsb is_image ys = false -> map FText (leading_texts ys) = ys.
Proof.
  induction ys as [|[t|value] ys IH]; cbn; intros Hys;
    [reflexivity| |discriminate].
  now rewrite IH.
Qed.

(** Lines 74 to 80 taken alone: the output, then the marked error, then
    the decoded image unless the screenshots are hidden. *)
Lemma tool_result_branch_in_order
    (b64decode : pystr -> result (list byte))
    (hide_images : bool) (r : ToolResult) :
  yielded (on_tool_result b64decode hide_images r) =
    (if opt_truthy (output r) then [FText (the (output r))] else [])
    ++ (if opt_truthy (error r)
        then [FText (lit "Error: " ++ the (error r))] else [])
    ++ (if opt_truthy (base64_image r) && negb hide_images
        then match b64decode (the (base64_image r)) with
             | Ok value => [FImage value]
             | Raise _ => []
             end
        else []).
Proof.
  rewrite on_tool_result_run. unfold tool_result_texts.
  destruct r as [o e i]; cbn [output error base64_image].
  destruct (opt_truthy o), (opt_truthy e),
    (opt_truthy i && negb hide_images);
    try destruct (b64decode (the i)); reflexivity.
Qed.

(** C3, on the code: for every tool result and either setting of
    [hide_images], the callback yields nothing and ends with the
    [NameError] of line 71; the branch of lines 73 to 80, which would
    yield the fragments of the claim, is never reached. *)
Theorem tool_result_raises_name_error
    (Input : Type) (py_str : Input -> pystr)
    (b64decode : pystr -> result (list byte))
    (hide_images : bool) (sender : Sender) (r : ToolResult) :
  output_callback py_str b64decode hide_images sender (ToolResultC r) =
    mkGen [] (Raise (NameError "ToolUseBlock")).
Proof. apply output_callback_run. Qed.

(** The tool result of the specification's example: the branch alone
    yields the output, the callback yields nothing. *)
Example tool_result_output_only (hide_images : bool) :
  yielded (on_tool_result b64decode_py hide_images
             (mkToolResult (Some (lit "ok")) (Some empty_str) None)) =
    [FText (lit "ok")]
  /\ yielded (output_callback (fun i : pystr => i) b64decode_py hide_images
                TOOL
                (ToolResultC
                   (mkToolResult (Some (lit "ok")) (Some empty_str) None))) =
       [].
Proof. destruct hide_images; split; reflexivity. Qed.

(** C4, the claim refuted: a value of an unknown class ends the callback
    with a [NameError], which is not an [UnsupportedChunkError], and a
    tool-use block, a recognized kind, ends it in the same way. *)
Lemma unknown_content_raises_name_error :
  output_callback (fun i : pystr => i) b64decode_py false BOT
    (Other "dict") = mkGen [] (Raise (NameError "ToolUseBlock"))
  /\ exn_class (NameError "ToolUseBlock") <> "UnsupportedChunkError"%string
  /\ output_callback (fun i : pystr => i) b64decode_py false BOT
       (ToolUseBlock true (lit "computer") (lit "{}")) =
       mkGen [] (Raise (NameError "ToolUseBlock")).
Proof. repeat split; try reflexivity. discriminate. Qed.

(** C4 (as the code has it).  Whenever the callback ends with an
    exception, the exception is not an [UnsupportedChunkError], and the
    content is not a text: for a string and for a text block the callback
    never raises. *)
Theorem no_unsupported_chunk_error
    (Input : Type) (py_str : Input -> pystr)
    (b64decode : pystr -> result (list byte))
    (hide_images : bool) (sender : Sender) (c : content Input) (e : exn) :
  outcome (output_callback py_str b64decode hide_images sender c) = Raise e ->
  exn_class e <> "UnsupportedChunkError"%string
  /\ (forall s : pystr, c <> Str s)
  /\ (forall (beta : bool) (text : pystr), c <> TextBlock beta text).
Proof.
  rewrite output_callback_run.
  destruct c as [s|beta text|beta name input|r|cls]; cbn;
    try discriminate; intros [= <-]; repeat split; discriminate.
Qed.

(** The theorem at a dict. *)
Lemma no_unsupported_chunk_error_witness :
  outcome (output_callback (fun i : pystr => i) b64decode_py false BOT
             (Other "dict")) = Raise (NameError "ToolUseBlock")
  /\ (exn_class (NameError "ToolUseBlock") <> "UnsupportedChunkError"%string
      /\ (forall s : pystr, @Other pystr "dict" <> Str s)
      /\ (forall (beta : bool) (text : pystr),
             @Other pystr "dict" <> TextBlock beta text)).
Proof.
  split; [reflexivity|].
  apply (no_unsupported_chunk_error pystr (fun i : pystr => i) b64decode_py
           false BOT (Other "dict") (NameError "ToolUseBlock")).
  reflexivity.
Defined.

(** X9.  As the module stands, the callback depends neither on
    [hide_images] nor on the sender nor on the decoder; for every content
    it yields at most one fragment and never an image; and it ends with an
    exception exactly when the content is neither a string nor a text
    block. *)
Theorem callback_yields_at_most_one_text
    (Input : Type) (py_str : Input -> pystr)
    (decode1 decode2 : pystr -> result (list byte))
    (hide1 hide2 : bool) (sender1 sender2 : Sender) (c : content Input) :
  output_callback py_str decode1 hide1 sender1 c =
    output_callback py_str decode2 hide2 sender2 c
  /\ length (yielded (output_callback py_str decode1 hide1 sender1 c)) <= 1
  /\ existsb is_image
       (yielded (output_callback py_str decode1 hide1 sender1 c)) = false
  /\ is_raise (outcome (output_callback py_str decode1 hide1 sender1 c)) =
       match c with
       | Str _ | TextBlock _ _ => false
       | ToolUseBlock _ _ _ | ToolResultC _ | Other _ => true
       end.
Proof.
  rewrite !output_callback_run.
  destruct c; cbn; repeat split; lia.
Qed.

(** ** [chat] and the normalizer together *)

Lemma replay_app {Input} (tr1 tr2 : list (event Input)) :
  forall h, replay h (tr1 ++ tr2) = replay (replay h tr1) tr2.
Proof.
  induction tr1 as [|ev tr1 IH]; intros h; [reflexivity|].
  destruct ev; cbn; apply IH.
Qed.

Lemma replay_yields {Input} (l : list pystr) (h : list ChatTurn) :
  replay h (map (@EvYield Input) l) = h.
Proof. induction l as [|x l IH]; [reflexivity|exact IH]. Qed.

(** The snapshots of any run, by what the loop yields. *)
Lemma snapshots_of_chat
    (Input : Type) (py_str : Input -> pystr)
    (b64decode : pystr -> result (list byte))
    (sampling_loop : LoopArgs Input -> Gen fragment unit)
    (message api_key provider model prompt : pystr) (only_n : N)
    (hide_images : bool) (h : list ChatTurn) :
  snapshots
    (st_trace
       (snd (chat py_str b64decode sampling_loop message api_key provider
               model prompt only_n hide_images (mkCState h [])))) =
    running empty_str
      (leading_texts
         (yielded
            (sampling_loop
               (chat_loop_args py_str b64decode (h ++ [user_turn message])
                  api_key provider model prompt only_n hide_images)))).
Proof.
  rewrite chat_any_run.
  set (g := sampling_loop _).
  destruct (existsb is_image (yielded g)); cbn [snd st_trace].
  - rewrite <- (app_nil_r (_ ++ _ ++ map EvYield _)).
    now apply snapshots_of_run.
  - destruct (outcome g) as [[]|e]; cbn [snd st_trace].
    + now apply snapshots_of_run.
    + rewrite <- (app_nil_r (_ ++ _ ++ map EvYield _)).
      now apply snapshots_of_run.
Qed.

(** What the delivery yields is what the callbacks produce for the
    values delivered. *)
Lemma deliver_run {Input} (args : LoopArgs Input)
    (script : list (Origin * content Input)) :
  yielded (deliver args script) = fragments_of args (delivered args script).
Proof.
  induction script as [|[o c] script IH]; [reflexivity|].
  cbn [deliver delivered bind Monad_Gen]. unfold gen_bind, fragments_of.
  cbn [flat_map fst snd].
  destruct (outcome (callback_of args o c)) as [[]|e]; cbn [yielded].
  - now rewrite IH.
  - cbn. now rewrite app_nil_r.
Qed.

Lemma model_yields {Input} (args : LoopArgs Input)
    (script : list (Origin * content Input)) (ending : result unit) :
  yielded (sampling_loop_model script ending args) =
    yielded (deliver args script).
Proof.
  unfold sampling_loop_model. cbn [bind Monad_Gen]. unfold gen_bind.
  destruct (outcome (deliver args script)) as [[]|e]; cbn;
    [apply app_nil_r|reflexivity].
Qed.

(** The callbacks of [chat] produce texts only. *)
Lemma fragments_of_chat_are_texts
    (Input : Type) (py_str : Input -> pystr)
    (b64decode : pystr -> result (list byte))
    (api_key provider model prompt : pystr) (only_n : N)
    (hide_images : bool) (history : list ChatTurn)
    (chunks : list (Origin * content Input)) :
  existsb is_image
    (fragments_of
       (chat_loop_args py_str b64decode history api_key provider model
          prompt only_n hide_images) chunks) = false.
Proof.
  unfold fragments_of.
  induction chunks as [|[o c] chunks IH]; [reflexivity|].
  cbn [flat_map fst snd]. rewrite existsb_app, IH, callback_of_chat.
  rewrite output_callback_run. destruct c; reflexivity.
Qed.

(** C6.  For every script of the agent loop and every way the loop ends,
    [chat] emits exactly one snapshot for every fragment the callbacks
    produce for the content values delivered, and the snapshots are the
    values of the buffer after each of these fragments has been appended,
    in order. *)
Theorem one_snapshot_per_fragment
    (Input : Type) (py_str : Input -> pystr)
    (b64decode : pystr -> result (list byte))
    (script : list (Origin * content Input)) (ending : result unit)
    (message api_key provider model prompt : pystr) (only_n : N)
    (hide_images : bool) (h : list ChatTurn) :
  let args := chat_loop_args py_str b64decode (h ++ [user_turn message])
                api_key provider model prompt only_n hide_images in
  let fs := fragments_of args (delivered args script) in
  let snaps :=
    snapshots
      (st_trace
         (snd (chat py_str b64decode (sampling_loop_model script ending)
                 message api_key provider model prompt only_n hide_images
                 (mkCState h [])))) in
  length snaps = length fs
  /\ fs = map FText (leading_texts fs)
  /\ snaps = running empty_str (leading_texts fs).
Proof.
  intros args fs snaps.
  assert (Hfs : map FText (leading_texts fs) = fs).
  { apply texts_of_no_image. apply fragments_of_chat_are_texts. }
  assert (Hs : snaps = running empty_str (leading_texts fs)).
  { subst snaps. rewrite snapshots_of_chat, model_yields, deliver_run.
    reflexivity. }
  split; [|split; [now symmetry|exact Hs]].
  rewrite Hs, running_length.
  rewrite <- (length_map FText (leading_texts fs)). now rewrite Hfs.
Qed.

(** The scenario of the specification: a tool use, a tool result with a
    screenshot and a closing text.  The first value ends the run. *)
Example screenshot_scenario_raises :
  let r := demo_chat
             [(FromAssistant,
               ToolUseBlock true (lit "screenshot") (lit "{}"));
              (FromTool,
               ToolResultC (mkToolResult None None (Some (lit "QQ=="))));
              (FromAssistant, Str (lit "Here is the screenshot."))]
             (Ok tt) false (lit "take a screenshot") [] in
  fst r = Raise (NameError "ToolUseBlock")
  /\ snapshots (st_trace (snd r)) = []
  /\ st_history (snd r) = [user_turn (lit "take a screenshot")].
Proof. cbv zeta. repeat split; reflexivity. Qed.





(** C8.  For every message, history and agent loop: the first thing
    [chat] does is to append the user turn to the history, and only then
    is the agent loop called, once; the messages it is called with are the
    turns of the history with the new user turn at the end, in order,
    each as its role and its content wrapped in one text block.  The
    history [chat] leaves is the one its recorded appends produce, so it
    begins with the old history and the user turn, and the loop that was
    called is the one whose texts are accumulated. *)
Theorem chat_appends_user_turn_before_loop
    (Input : Type) (py_str : Input -> pystr)
    (b64decode : pystr -> result (list byte))
    (sampling_loop : LoopArgs Input -> Gen fragment unit)
    (message api_key provider model prompt : pystr) (only_n : N)
    (hide_images : bool) (h : list ChatTurn) :
  let u := mkTurn (lit "user") message in
  let args := chat_loop_args py_str b64decode (h ++ [u]) api_key provider
                model prompt only_n hide_images in
  let r := chat py_str b64decode sampling_loop message api_key provider
             model prompt only_n hide_images (mkCState h []) in
  exists (rest : list (event Input)) (tail : list ChatTurn),
    st_trace (snd r) = EvAppend u :: EvLoop args :: rest
    /\ replay h [@EvAppend Input u] = h ++ [u]
    /\ messages args =
         map (fun m => mkMessage (role m)
                         [mkBlock (lit "text") (content_of m)])
             (h ++ [u])
    /\ existsb is_loop_call rest = false
    /\ st_history (snd r) = replay h (st_trace (snd r))
    /\ st_history (snd r) = h ++ u :: tail
    /\ snapshots rest =
         running empty_str (leading_texts (yielded (sampling_loop args))).
Proof.
  intros u args r. subst r args u.
  change (mkTurn (lit "user") message) with (user_turn message).
  rewrite chat_any_run.
  set (u := user_turn message).
  set (args := chat_loop_args py_str b64decode (h ++ [u]) api_key provider
                 model prompt only_n hide_images).
  set (l := running empty_str (leading_texts (yielded (sampling_loop args)))).
  set (a := assistant_turn
              (concat (leading_texts (yielded (sampling_loop args))))).
  assert (Hrep : forall tl : list (event Input),
             replay h (([] ++ [EvAppend u; EvLoop args] ++ map EvYield l)
                         ++ tl) = replay (h ++ [u]) tl).
  { intros tl. rewrite replay_app. cbn [app replay].
    now rewrite replay_yields. }
  assert (Hrep0 : replay h ([] ++ [EvAppend u; EvLoop args] ++ map EvYield l)
                  = h ++ [u]).
  { rewrite <- (app_nil_r (_ ++ _ ++ map EvYield l)). apply Hrep. }
  destruct (existsb is_image (yielded (sampling_loop args))).
  - cbn [snd st_trace st_history].
    exists (map EvYield l), [].
    split; [reflexivity|]. split; [reflexivity|]. split; [reflexivity|].
    split; [apply no_loop_call_in_yields|].
    split; [now rewrite Hrep0|].
    split; [reflexivity|apply snapshots_yields].
  - destruct (outcome (sampling_loop args)) as [[]|e];
      cbn [snd st_trace st_history].
    + exists (map EvYield l ++ [EvAppend a]), [a].
      split; [reflexivity|]. split; [reflexivity|]. split; [reflexivity|].
      split; [rewrite existsb_app, no_loop_call_in_yields; reflexivity|].
      split; [rewrite Hrep; cbn [replay]; now rewrite <- app_assoc|].
      split; [reflexivity|].
      rewrite snapshots_app, snapshots_yields. apply app_nil_r.
    + exists (map EvYield l), [].
      split; [reflexivity|]. split; [reflexivity|]. split; [reflexivity|].
      split; [apply no_loop_call_in_yields|].
      split; [now rewrite Hrep0|].
      split; [reflexivity|apply snapshots_yields].
Qed.

(** X13.  For every agent loop: an exception of the loop reaches the
    caller of [chat] unchanged; once the loop has yielded an image the
    exception is the [TypeError] of the concatenation, however the loop
    would have ended; and [chat] raises in no other case. *)
Theorem chat_exception_for_any_loop
    (Input : Type) (py_str : Input -> pystr)
    (b64decode : pystr -> result (list byte))
    (sampling_loop : LoopArgs Input -> Gen fragment unit)
    (message api_key provider model prompt : pystr) (only_n : N)
    (hide_images : bool) (h : list ChatTurn) :
  let g := sampling_loop
             (chat_loop_args py_str b64decode (h ++ [user_turn message])
                api_key provider model prompt only_n hide_images) in
  raised
    (fst (chat py_str b64decode sampling_loop message api_key provider
            model prompt only_n hide_images (mkCState h []))) =
    if existsb is_image (yielded g) then Some TypeError_concat
    else raised (outcome g).
Proof.
  intros g. rewrite chat_any_run. fold g.
  destruct (existsb is_image (yielded g)); [reflexivity|].
  destruct (outcome g) as [[]|e]; reflexivity.
Qed.

(** The message of the [TypeError], character by character. *)
Example TypeError_concat_message :
  exn_msg TypeError_concat =
    [99; 97; 110; 32; 111; 110; 108; 121; 32; 99; 111; 110; 99; 97; 116;
     101; 110; 97; 116; 101; 32; 115; 116; 114; 32; 40; 110; 111; 116; 32;
     34; 73; 109; 97; 103; 101; 34; 41; 32; 116; 111; 32; 115; 116;
     114]%N.
Proof. reflexivity. Qed.

Example Invalid_length_message :
  exn_msg (Invalid_length 0) =
    lit "Invalid base64-encoded string: number of data characters (1) cannot be 1 more than a multiple of 4".
Proof. reflexivity. Qed.
